(** * Pulsing-dot markers (src/dot-options-cursor.js)

    A shallow embedding of the five marker factories of
    [dot-options-cursor.js] and of the parts of the browser they talk to
    (the clock, a 2D canvas context, the map's repaint trigger), followed
    by the properties of the throttle gate, the stop flag, the frame ring,
    the opacity scaling, the colour selection and the pixel buffer.

    Conventions of the embedding.
    - A JavaScript number holding a time or a length is a rational ([Q]);
      the one transcendental step, [Math.sin], is taken over the reals.
      Where the digits of a number are printed ([toFixed]), the number is
      computed as the code computes it, in binary64 ([Js.double]).
    - A typed array is a [list Z] of bytes.
    - A method is a function from the state of the object (and of the host)
      to an outcome and the new state; a thrown exception is an outcome.
    - [performance.now()] is an input of the call: a method that reads the
      clock twice takes two readings. *)

From Stdlib Require Import ZArith QArith Qround Qabs Qminmax Qpower List Bool Lia Lqa.
From Stdlib Require Import Reals Qreals Lra.
Import ListNotations.

(** ** JavaScript values and number operations *)

Module Js.

  (** The two exceptions the file can raise: an identifier with no binding,
      and a member access on [undefined]. *)
Inductive Error : Type :=
  | ReferenceError
  | TypeError.

  (** How a call ends: with a value, or with an exception. *)
Inductive Outcome (A : Type) : Type :=
  | Returned (a : A)
  | Threw (e : Error).
Arguments Returned {A} a.
Arguments Threw {A} e.

Local Open Scope Q_scope.

  (** [a < b] on numbers, as a boolean. *)
Definition ltb (a b : Q) : bool := negb (Qle_bool b a).

  (** Truncation towards zero. *)
Definition trunc (q : Q) : Z := Z.quot (Qnum q) (Zpos (Qden q)).

  (** [x % d]: the remainder has the sign of the dividend. *)
Definition rem (x d : Q) : Q := x - d * inject_Z (trunc (x / d)).

  (** [2 ^ e], for an exponent of either sign. *)
Definition pow2 (e : Z) : Q := Qpower 2 e.

  (** The integer part of the binary logarithm of a positive number. *)
Definition ilog2 (q : Q) : Z :=
    let k := (Z.log2 (Qnum q) - Z.log2 (Zpos (Qden q)))%Z in
    if Qle_bool (pow2 k) q then k else (k - 1)%Z.

  (** The nearest integer to a number that is not negative, the even one
      on a tie. *)
Definition nearest_even (q : Q) : Z :=
    let f := Qfloor q in
    let r := q - inject_Z f in
    if ltb r (1 # 2) then f
    else if ltb (1 # 2) r then (f + 1)%Z
    else if Z.even f then f else (f + 1)%Z.

  (** The binary64 number nearest to [q], the one with the even
      significand on a tie: 53 significant bits, the unit in the last
      place never below [2 ^ -1074]. The numbers of the file stay far
      below [2 ^ 1024], where the result would be infinite. *)
Definition double (q : Q) : Q :=
    if Qeq_bool q 0 then 0
    else
      let a := Qabs q in
      let e := Z.max (ilog2 a - 52) (-1074) in
      let r := Qred (inject_Z (nearest_even (a / pow2 e)) * pow2 e) in
      if ltb q 0 then - r else r.

  (** [x - y] on binary64 numbers. *)
Definition minus (x y : Q) : Q := double (x - y).

  (** The value of the decimal string [x.toFixed(2)] of a binary64 number
      [x]: the sign is set aside, and the hundredths are the nearest
      integer to [|x| * 100], the larger one on a tie. *)
Definition toFixed2 (x : Q) : Q :=
    let n := Qfloor (Qabs x * 100 + (1 # 2)) in
    if ltb x 0 then - (inject_Z n / 100) else inject_Z n / 100.

  (** [new Uint8Array(n)]: [n] zero bytes. *)
Definition Uint8Array (n : nat) : list Z := repeat 0%Z n.

  (** What a byte array stores for an integer outside [0, 255] coming from
      the rasterizer: image data is clamped. *)
Definition clamp_byte (v : Z) : Z := Z.max 0 (Z.min 255 v).

Local Open Scope R_scope.

  (** Storing a number into a [Uint8ClampedArray] (ToUint8Clamp): clamp to
      [0, 255], then round to the nearest integer, to the even one on a
      tie. *)
Definition ToUint8Clamp (x : R) : Z :=
    if Rle_dec x 0 then 0%Z
    else if Rle_dec 255 x then 255%Z
    else
      let f := Int_part x in
      if Rlt_dec (x - IZR f) (1 / 2) then f
      else if Rlt_dec (1 / 2) (x - IZR f) then (f + 1)%Z
      else if Z.even f then f else (f + 1)%Z.

End Js.

(** ** The 2D canvas context *)

Module Canvas.

Local Open Scope Q_scope.

  (** A CSS colour [rgba(r, g, b, a)]; the hexadecimal form [#rrggbb] is
      the same colour with [a = 1]. *)
Record Rgba : Type := rgba {
    red : Z;
    green : Z;
    blue : Z;
    alpha : Q
  }.

  (** [c.replace('0.6', a)] on the outer colours of the file: in each of
      them the text [0.6] occurs once, as the alpha component. *)
Definition replace_alpha (c : Rgba) (a : Q) : Rgba :=
    rgba (red c) (green c) (blue c) a.

  (** [arc(cx, cy, r, 0, Math.PI * 2)]: every arc of the file is a full
      circle. *)
Record Circle : Type := circle {
    centre_x : Q;
    centre_y : Q;
    radius : Q
  }.

  (** The calls that change pixels, with the state they were issued in. *)
Inductive DrawOp : Type :=
  | Clear (x y w h : Q)
  | Fill (p : list Circle) (style : Rgba)
  | Stroke (p : list Circle) (style : Rgba) (width : Q).

  (** A context and the canvas behind it. [drawn] lists the pixel-changing
      calls made so far, oldest first. *)
Record Context2D : Type := mkContext {
    canvas_width : nat;
    canvas_height : nat;
    fillStyle : Rgba;
    strokeStyle : Rgba;
    lineWidth : Q;
    path : list Circle;
    drawn : list DrawOp
  }.

Definition black : Rgba := rgba 0 0 0 1.

  (** [document.createElement('canvas')], its [width] and [height] set,
      then [getContext('2d')]: a blank canvas with the default styles. *)
Definition createContext (w h : nat) : Context2D :=
    mkContext w h black black 1 [] [].

Definition set_fillStyle (c : Rgba) (k : Context2D) : Context2D :=
    mkContext (canvas_width k) (canvas_height k) c (strokeStyle k)
              (lineWidth k) (path k) (drawn k).

Definition set_strokeStyle (c : Rgba) (k : Context2D) : Context2D :=
    mkContext (canvas_width k) (canvas_height k) (fillStyle k) c
              (lineWidth k) (path k) (drawn k).

Definition set_lineWidth (w : Q) (k : Context2D) : Context2D :=
    mkContext (canvas_width k) (canvas_height k) (fillStyle k) (strokeStyle k)
              w (path k) (drawn k).

Definition set_path (p : list Circle) (k : Context2D) : Context2D :=
    mkContext (canvas_width k) (canvas_height k) (fillStyle k) (strokeStyle k)
              (lineWidth k) p (drawn k).

Definition record (op : DrawOp) (k : Context2D) : Context2D :=
    mkContext (canvas_width k) (canvas_height k) (fillStyle k) (strokeStyle k)
              (lineWidth k) (path k) (drawn k ++ [op]).

Definition beginPath (k : Context2D) : Context2D := set_path [] k.

Definition arc (x y r : Q) (k : Context2D) : Context2D :=
    set_path (path k ++ [circle x y r]) k.

Definition clearRect (x y w h : Q) (k : Context2D) : Context2D :=
    record (Clear x y w h) k.

Definition fill (k : Context2D) : Context2D :=
    record (Fill (path k) (fillStyle k)) k.

Definition stroke (k : Context2D) : Context2D :=
    record (Stroke (path k) (strokeStyle k) (lineWidth k)) k.

  (** The browser's rasterizer: the value of channel [c] (0 to 3) of the
      pixel in column [x], row [y] of a [w] by [h] canvas after the calls
      [ops]. The file relies on no property of it. *)
Definition Rasterizer : Type :=
    nat -> nat -> list DrawOp -> nat -> nat -> nat -> Z.

  (** The four bytes of the pixel in column [x], row [y] as [getImageData]
    returns them; a pixel outside the canvas reads as transparent black. *)
Definition image_pixel (rz : Rasterizer) (k : Context2D) (x y : nat) : list Z :=
  map (fun c =>
         if (x <? canvas_width k)%nat && (y <? canvas_height k)%nat
         then Js.clamp_byte (rz (canvas_width k) (canvas_height k) (drawn k) x y c)
         else 0%Z)
      [0; 1; 2; 3]%nat.

(** [getImageData(0, 0, sw, sh).data]: a fresh array of [sw * sh * 4]
    bytes, row after row. *)
Definition getImageData (rz : Rasterizer) (k : Context2D) (sw sh : nat) : list Z :=
  flat_map (fun y => flat_map (fun x => image_pixel rz k x y) (seq 0 sw)) (seq 0 sh).

End Canvas.

(** ** The host: the map's repaint trigger and the global scope *)

Module Host.

  (** [repaints] counts the calls of [mapbox.triggerRepaint()].
      [global_context] is what the free identifier [context] resolves to:
      the module declares no such name, so it is [None] unless the page
      defines a global of that name. *)
Record t : Type := mk {
    repaints : nat;
    global_context : option Canvas.Context2D
  }.

Definition triggerRepaint (h : t) : t :=
    mk (S (repaints h)) (global_context h).

Definition set_global_context (k : Canvas.Context2D) (h : t) : t :=
    mk (repaints h) (Some k).

  (** A page with no global named [context]. *)
Definition plain : t := mk 0 None.

End Host.

(** The three colours of a marker. *)
Record Colors : Type := mkColors {
  outer : Canvas.Rgba;
  inner : Canvas.Rgba;
  stroke : Canvas.Rgba
}.

(** [const size = 75] of every factory. *)
Definition size : nat := 75.

(** ** Option 1: the static marker (lines 15-27) *)

Module StaticDot.

Record t : Type := mk {
  width : nat;
  height : nat;
  data : list Z
}.

(** [render]: nothing is read or written. *)
Definition render (s : t) : bool * t := (false, s).

(** [n] calls of [render] in a row: the values returned, and the object
    afterwards. *)
Fixpoint renders (n : nat) (s : t) : list bool * t :=
  match n with
  | O => ([], s)
  | S n' =>
      let '(b, s1) := render s in
      let '(bs, s2) := renders n' s1 in
      (b :: bs, s2)
  end.

End StaticDot.

Definition createStaticPulsingDot (isCarrierVehicleOnRoute isGrey : bool) : StaticDot.t :=
  StaticDot.mk size size (Js.Uint8Array (size * size * 4)).

(** ** Option 2: the reduced frame rate marker (lines 35-109) *)

Module LowFrameRate.

Local Open Scope Q_scope.

(** [lastUpdate] is the closure's variable; the other fields are the
    object's properties. [context] is [None] until [onAdd] sets it. *)
Record t : Type := mk {
  size : nat;
  width : nat;
  height : nat;
  data : list Z;
  isCarrierVehicleOnRoute : bool;
  isGrey : bool;
  stopPulse : bool;
  context : option Canvas.Context2D;
  lastUpdate : Q
}.

Definition updateInterval : Q := 100.
Definition duration : Q := 2000.

Definition set_context (k : Canvas.Context2D) (s : t) : t :=
  mk (size s) (width s) (height s) (data s) (isCarrierVehicleOnRoute s)
     (isGrey s) (stopPulse s) (Some k) (lastUpdate s).

Definition set_lastUpdate (now : Q) (s : t) : t :=
  mk (size s) (width s) (height s) (data s) (isCarrierVehicleOnRoute s)
     (isGrey s) (stopPulse s) (context s) now.

Definition set_data (d : list Z) (s : t) : t :=
  mk (size s) (width s) (height s) d (isCarrierVehicleOnRoute s)
     (isGrey s) (stopPulse s) (context s) (lastUpdate s).

(** The host's write to the public flag: [marker.stopPulse = b]. *)
Definition set_stopPulse (b : bool) (s : t) : t :=
  mk (size s) (width s) (height s) (data s) (isCarrierVehicleOnRoute s)
     (isGrey s) b (context s) (lastUpdate s).

(** Lines 81-85. *)
Definition colors (isGrey isCarrierVehicleOnRoute : bool) : Colors :=
  if isGrey
  then mkColors (Canvas.rgba 55 64 83 (6 # 10)) (Canvas.rgba 55 64 83 1)
                (Canvas.rgba 237 240 240 (7 # 10))
  else if isCarrierVehicleOnRoute
  then mkColors (Canvas.rgba 84 199 116 (6 # 10)) (Canvas.rgba 84 199 116 1)
                (Canvas.rgba 84 199 116 1)
  else mkColors (Canvas.rgba 219 55 19 (6 # 10)) (Canvas.rgba 219 55 19 1)
                (Canvas.rgba 237 240 240 (7 # 10)).

(** Lines 49-54. *)
Definition onAdd (s : t) : t :=
  set_context (Canvas.createContext (width s) (height s)) s.

(** The phase of line 64. *)
Definition phase (now : Q) : Q := Js.rem now duration / duration.

(** Line 87-89: the style of the outer circle. The digits [toFixed]
    prints are those of the binary64 difference: of the literal [0.6] and
    of the phase as the division of line 64 rounds it. *)
Definition outer_fill (stop : bool) (c : Colors) (t : Q) : Canvas.Rgba :=
  if stop then Canvas.rgba 219 55 19 0
  else Canvas.replace_alpha (outer c)
         (Js.toFixed2 (Js.minus (Js.double (6 # 10)) (Js.double t))).

(** Lines 66-99: the drawing calls, in order. *)
Definition draw (s : t) (t : Q) (k : Canvas.Context2D) : Canvas.Context2D :=
  let half := inject_Z (Z.of_nat (size s)) / 2 in
  let radius := half * (3 # 10) in
  let outerRadius := half * (7 # 10) * t + radius in
  let w := inject_Z (Z.of_nat (width s)) in
  let h := inject_Z (Z.of_nat (height s)) in
  let k := Canvas.clearRect 0 0 w h k in
  let k := Canvas.beginPath k in
  let k := Canvas.arc (w / 2) (h / 2) outerRadius k in
  let c := colors (isGrey s) (isCarrierVehicleOnRoute s) in
  let k := Canvas.set_fillStyle (outer_fill (stopPulse s) c t) k in
  let k := Canvas.fill k in
  let k := Canvas.beginPath k in
  let k := Canvas.arc (w / 2) (h / 2) radius k in
  let k := Canvas.set_fillStyle (inner c) k in
  let k := Canvas.set_strokeStyle (stroke c) k in
  let k := Canvas.set_lineWidth 2 k in
  let k := Canvas.fill k in
  Canvas.stroke k.

(** Lines 56-107. [now] is the clock reading of line 57, [now2] that of
    line 64. With no context ([onAdd] not called) line 71 throws, after
    line 61 has stored the time. *)
Definition render (rz : Canvas.Rasterizer) (h : Host.t) (s : t) (now now2 : Q)
  : Js.Outcome bool * t * Host.t :=
  if Js.ltb (now - lastUpdate s) updateInterval then (Js.Returned false, s, h)
  else
    let s := set_lastUpdate now s in
    match context s with
    | None => (Js.Threw Js.TypeError, s, h)
    | Some k =>
        let k := draw s (phase now2) k in
        let s := set_context k s in
        let s := set_data (Canvas.getImageData rz k (width s) (height s)) s in
        (Js.Returned true, s, Host.triggerRepaint h)
    end.

(** What the host does with the object: the two hooks, and a write to the
    public flag. *)
Inductive Call : Type :=
| OnAdd
| Render (now now2 : Q)
| SetStopPulse (b : bool).

Definition call (rz : Canvas.Rasterizer) (st : t * Host.t) (c : Call) : t * Host.t :=
  match c with
  | OnAdd => (onAdd (fst st), snd st)
  | Render now now2 =>
      let '(_, s, h) := render rz (snd st) (fst st) now now2 in (s, h)
  | SetStopPulse b => (set_stopPulse b (fst st), snd st)
  end.

Definition run (rz : Canvas.Rasterizer) (calls : list Call) (st : t * Host.t)
  : t * Host.t :=
  fold_left (call rz) calls st.

End LowFrameRate.

Definition createLowFrameRatePulsingDot (isCarrierVehicleOnRoute isGrey : bool)
  : LowFrameRate.t :=
  LowFrameRate.mk size size size (Js.Uint8Array (size * size * 4))
                  isCarrierVehicleOnRoute isGrey false None 0.

(** ** Option 3: the pre-rendered frames marker (lines 117-189) *)

Module PreRendered.

Local Open Scope Q_scope.

(** [currentFrame], [lastUpdate] and [colors] are the closure's variables.
    [data] is [None] when the property holds [undefined], which is what
    reading an array past its end gives. [preRenderedFrames] is [None]
    while the property is [null]. *)
Record t : Type := mk {
  size : nat;
  width : nat;
  height : nat;
  data : option (list Z);
  isCarrierVehicleOnRoute : bool;
  isGrey : bool;
  stopPulse : bool;
  preRenderedFrames : option (list (list Z));
  context : option Canvas.Context2D;
  currentFrame : nat;
  lastUpdate : Q;
  closure_colors : Colors
}.

Definition frameCount : nat := 20.
Definition frameInterval : Q := 100.

(** Lines 124-128. *)
Definition colors (isGrey isCarrierVehicleOnRoute : bool) : Colors :=
  if isGrey
  then mkColors (Canvas.rgba 55 64 83 (6 # 10)) (Canvas.rgba 55 64 83 1)
                (Canvas.rgba 237 240 240 (7 # 10))
  else if isCarrierVehicleOnRoute
  then mkColors (Canvas.rgba 84 199 116 (6 # 10)) (Canvas.rgba 84 199 116 1)
                (Canvas.rgba 84 199 116 1)
  else mkColors (Canvas.rgba 219 55 19 (6 # 10)) (Canvas.rgba 219 55 19 1)
                (Canvas.rgba 237 240 240 (7 # 10)).

Definition set_context (k : Canvas.Context2D) (s : t) : t :=
  mk (size s) (width s) (height s) (data s) (isCarrierVehicleOnRoute s)
     (isGrey s) (stopPulse s) (preRenderedFrames s) (Some k)
     (currentFrame s) (lastUpdate s) (closure_colors s).

Definition set_preRenderedFrames (f : list (list Z)) (s : t) : t :=
  mk (size s) (width s) (height s) (data s) (isCarrierVehicleOnRoute s)
     (isGrey s) (stopPulse s) (Some f) (context s)
     (currentFrame s) (lastUpdate s) (closure_colors s).

Definition set_lastUpdate (now : Q) (s : t) : t :=
  mk (size s) (width s) (height s) (data s) (isCarrierVehicleOnRoute s)
     (isGrey s) (stopPulse s) (preRenderedFrames s) (context s)
     (currentFrame s) now (closure_colors s).

Definition set_data (d : option (list Z)) (s : t) : t :=
  mk (size s) (width s) (height s) d (isCarrierVehicleOnRoute s)
     (isGrey s) (stopPulse s) (preRenderedFrames s) (context s)
     (currentFrame s) (lastUpdate s) (closure_colors s).

Definition set_currentFrame (n : nat) (s : t) : t :=
  mk (size s) (width s) (height s) (data s) (isCarrierVehicleOnRoute s)
     (isGrey s) (stopPulse s) (preRenderedFrames s) (context s)
     n (lastUpdate s) (closure_colors s).

(** The host's write to the public flag: [marker.stopPulse = b]. *)
Definition set_stopPulse (b : bool) (s : t) : t :=
  mk (size s) (width s) (height s) (data s) (isCarrierVehicleOnRoute s)
     (isGrey s) b (preRenderedFrames s) (context s)
     (currentFrame s) (lastUpdate s) (closure_colors s).

(** Line 156 closes the brace of its template before the parenthesis of
    the call inside it, so the text has no reading as an expression. What
    it assigns to [fillStyle] is taken as given: from the colours and the
    phase of the frame, a colour, or nothing when the assignment has no
    effect (a canvas ignores a text that is no colour). *)
Definition Line156 : Type := Colors -> Q -> option Canvas.Rgba.

(** Lines 149-165: the drawing calls of frame [i], on the context [k] the
    identifier [context] resolves to. *)
Definition draw_frame (line156 : Line156) (s : t) (i : nat) (k : Canvas.Context2D)
  : Canvas.Context2D :=
  let t := inject_Z (Z.of_nat i) / inject_Z (Z.of_nat frameCount) in
  let half := inject_Z (Z.of_nat (size s)) / 2 in
  let radius := half * (3 # 10) in
  let outerRadius := half * (7 # 10) * t + radius in
  let w := inject_Z (Z.of_nat (width s)) in
  let h := inject_Z (Z.of_nat (height s)) in
  let c := closure_colors s in
  let k := Canvas.clearRect 0 0 w h k in
  let k := Canvas.beginPath k in
  let k := Canvas.arc (w / 2) (h / 2) outerRadius k in
  let k := match line156 c t with
           | Some style => Canvas.set_fillStyle style k
           | None => k
           end in
  let k := Canvas.fill k in
  let k := Canvas.beginPath k in
  let k := Canvas.arc (w / 2) (h / 2) radius k in
  let k := Canvas.set_fillStyle (inner c) k in
  let k := Canvas.set_strokeStyle (stroke c) k in
  let k := Canvas.set_lineWidth 2 k in
  let k := Canvas.fill k in
  Canvas.stroke k.

(** Lines 148-170: the loop over the frame numbers [todo]. The body names
    [context], which no scope of the module declares: with no global of
    that name the first use (line 153) throws a ReferenceError. *)
Fixpoint prerender (rz : Canvas.Rasterizer) (line156 : Line156) (todo : list nat)
         (s : t) (h : Host.t)
  : Js.Outcome unit * t * Host.t :=
  match todo with
  | [] => (Js.Returned tt, s, h)
  | i :: rest =>
      match Host.global_context h with
      | None => (Js.Threw Js.ReferenceError, s, h)
      | Some k =>
          let k := draw_frame line156 s i k in
          let h := Host.set_global_context k h in
          let frame := Canvas.getImageData rz k (width s) (height s) in
          match preRenderedFrames s with
          | None => (Js.Threw Js.TypeError, s, h)
          | Some f =>
              prerender rz line156 rest (set_preRenderedFrames (f ++ [frame]) s) h
          end
      end
  end.

(** Lines 140-171. *)
Definition onAdd (rz : Canvas.Rasterizer) (line156 : Line156) (h : Host.t) (s : t)
  : Js.Outcome unit * t * Host.t :=
  let s := set_context (Canvas.createContext (width s) (height s)) s in
  let s := set_preRenderedFrames [] s in
  prerender rz line156 (seq 0 frameCount) s h.

(** Lines 173-187. *)
Definition render (h : Host.t) (s : t) (now : Q) : bool * t * Host.t :=
  if Js.ltb (now - lastUpdate s) frameInterval then (false, s, h)
  else
    let s := set_lastUpdate now s in
    match preRenderedFrames s with
    | Some frames =>
        if (0 <? length frames)%nat then
          let s := set_data (nth_error frames (currentFrame s)) s in
          let s := set_currentFrame ((currentFrame s + 1) mod length frames)%nat s in
          (true, s, Host.triggerRepaint h)
        else (false, s, h)
    | None => (false, s, h)
    end.

(** What the host does with the object: the two hooks, a write to the
    public flag, and a script of the page binding or deleting the global
    [context]. *)
Inductive Call : Type :=
| OnAdd
| Render (now : Q)
| SetStopPulse (b : bool)
| Bind (k : option Canvas.Context2D).

Definition call (rz : Canvas.Rasterizer) (line156 : Line156) (st : t * Host.t)
           (c : Call) : t * Host.t :=
  match c with
  | OnAdd => let '(_, s, h) := onAdd rz line156 (snd st) (fst st) in (s, h)
  | Render now => let '(_, s, h) := render (snd st) (fst st) now in (s, h)
  | SetStopPulse b => (set_stopPulse b (fst st), snd st)
  | Bind k => (fst st, Host.mk (Host.repaints (snd st)) k)
  end.

Definition run (rz : Canvas.Rasterizer) (line156 : Line156) (calls : list Call)
           (st : t * Host.t)
  : t * Host.t :=
  fold_left (call rz line156) calls st.

(** A [render] at each of the clock readings [times], in order. *)
Definition renders (times : list Q) (st : t * Host.t) : t * Host.t :=
  fold_left (fun st now => let '(_, s, h) := render (snd st) (fst st) now in (s, h))
            times st.

(** Every reading of [times] passes the gate when the readings are taken
    in order, the last admitted tick before them being at [last]. *)
Fixpoint admitted (last : Q) (times : list Q) : bool :=
  match times with
  | [] => true
  | now :: rest => negb (Js.ltb (now - last) frameInterval) && admitted now rest
  end.

End PreRendered.

Definition createPreRenderedPulsingDot (isCarrierVehicleOnRoute isGrey : bool)
  : PreRendered.t :=
  PreRendered.mk size size size (Some (Js.Uint8Array (size * size * 4)))
                 isCarrierVehicleOnRoute isGrey false None None 0%nat 0
                 (PreRendered.colors isGrey isCarrierVehicleOnRoute).

(** ** Option 4: the opacity marker (lines 197-271) *)

Module OpacityDot.

(** [lastUpdate] is the closure's variable. *)
Record t : Type := mk {
  size : nat;
  width : nat;
  height : nat;
  data : list Z;
  isCarrierVehicleOnRoute : bool;
  isGrey : bool;
  stopPulse : bool;
  context : option Canvas.Context2D;
  lastUpdate : Q
}.

Definition set_context (k : Canvas.Context2D) (s : t) : t :=
  mk (size s) (width s) (height s) (data s) (isCarrierVehicleOnRoute s)
     (isGrey s) (stopPulse s) (Some k) (lastUpdate s).

Definition set_lastUpdate (now : Q) (s : t) : t :=
  mk (size s) (width s) (height s) (data s) (isCarrierVehicleOnRoute s)
     (isGrey s) (stopPulse s) (context s) now.

Definition set_data (d : list Z) (s : t) : t :=
  mk (size s) (width s) (height s) d (isCarrierVehicleOnRoute s)
     (isGrey s) (stopPulse s) (context s) (lastUpdate s).

(** The host's write to the public flag: [marker.stopPulse = b]. *)
Definition set_stopPulse (b : bool) (s : t) : t :=
  mk (size s) (width s) (height s) (data s) (isCarrierVehicleOnRoute s)
     (isGrey s) b (context s) (lastUpdate s).

Local Open Scope Q_scope.

Definition updateInterval : Q := 50.
Definition duration : Q := 2000.

(** Lines 221-225. *)
Definition colors (isGrey isCarrierVehicleOnRoute : bool) : Colors :=
  if isGrey
  then mkColors (Canvas.rgba 55 64 83 1) (Canvas.rgba 55 64 83 1)
                (Canvas.rgba 237 240 240 (7 # 10))
  else if isCarrierVehicleOnRoute
  then mkColors (Canvas.rgba 84 199 116 1) (Canvas.rgba 84 199 116 1)
                (Canvas.rgba 84 199 116 1)
  else mkColors (Canvas.rgba 219 55 19 1) (Canvas.rgba 219 55 19 1)
                (Canvas.rgba 237 240 240 (7 # 10)).

(** Lines 228-240: the drawing calls, on the context [k] the identifier
    [context] resolves to. *)
Definition draw_static (s : t) (k : Canvas.Context2D) : Canvas.Context2D :=
  let half := inject_Z (Z.of_nat (size s)) / 2 in
  let radius := half * (3 # 10) in
  let outerRadius := half * (7 # 10) in
  let w := inject_Z (Z.of_nat (width s)) in
  let h := inject_Z (Z.of_nat (height s)) in
  let c := colors (isGrey s) (isCarrierVehicleOnRoute s) in
  let k := Canvas.beginPath k in
  let k := Canvas.arc (w / 2) (h / 2) outerRadius k in
  let k := Canvas.set_fillStyle (outer c) k in
  let k := Canvas.fill k in
  let k := Canvas.beginPath k in
  let k := Canvas.arc (w / 2) (h / 2) radius k in
  let k := Canvas.set_fillStyle (inner c) k in
  let k := Canvas.set_strokeStyle (stroke c) k in
  let k := Canvas.set_lineWidth 2 k in
  let k := Canvas.fill k in
  Canvas.stroke k.

(** Lines 211-241. The new context goes to [this.context]; the drawing
    names [context], which no scope of the module declares: with no global
    of that name line 228 throws a ReferenceError and the new canvas stays
    blank. *)
Definition onAdd (h : Host.t) (s : t) : Js.Outcome unit * t * Host.t :=
  let s := set_context (Canvas.createContext (width s) (height s)) s in
  match Host.global_context h with
  | None => (Js.Threw Js.ReferenceError, s, h)
  | Some k => (Js.Returned tt, s, Host.set_global_context (draw_static s k) h)
  end.

(** The phase of line 255. *)
Definition phase (now : Q) : Q := Js.rem now duration / duration.

Local Open Scope R_scope.

(** Line 256. *)
Definition opacity (t : Q) : R := 0.3 + 0.7 * sin (Q2R t * PI).

(** Lines 262-264: every fourth byte from offset 3 is replaced by its
    product with [o], stored into the clamped byte array. *)
Fixpoint scale_alpha (o : R) (d : list Z) : list Z :=
  match d with
  | r :: g :: b :: a :: rest =>
      r :: g :: b :: Js.ToUint8Clamp (IZR a * o) :: scale_alpha o rest
  | _ => d
  end.

(** Lines 243-269. [now] is the clock reading of line 244, [now2] that of
    line 255. With no context ([onAdd] not called) line 259 throws. *)
Definition render (rz : Canvas.Rasterizer) (h : Host.t) (s : t) (now now2 : Q)
  : Js.Outcome bool * t * Host.t :=
  if Js.ltb (now - lastUpdate s) updateInterval then (Js.Returned false, s, h)
  else
    let s := set_lastUpdate now s in
    if stopPulse s then (Js.Returned false, s, h)
    else
      match context s with
      | None => (Js.Threw Js.TypeError, s, h)
      | Some k =>
          let imageData := Canvas.getImageData rz k (width s) (height s) in
          let s := set_data (scale_alpha (opacity (phase now2)) imageData) s in
          (Js.Returned true, s, Host.triggerRepaint h)
      end.

(** What the host does with the object: the two hooks, a write to the
    public flag, and a script of the page binding or deleting the global
    [context]. *)
Inductive Call : Type :=
| OnAdd
| Render (now now2 : Q)
| SetStopPulse (b : bool)
| Bind (k : option Canvas.Context2D).

Definition call (rz : Canvas.Rasterizer) (st : t * Host.t) (c : Call) : t * Host.t :=
  match c with
  | OnAdd => let '(_, s, h) := onAdd (snd st) (fst st) in (s, h)
  | Render now now2 =>
      let '(_, s, h) := render rz (snd st) (fst st) now now2 in (s, h)
  | SetStopPulse b => (set_stopPulse b (fst st), snd st)
  | Bind k => (fst st, Host.mk (Host.repaints (snd st)) k)
  end.

Definition run (rz : Canvas.Rasterizer) (calls : list Call) (st : t * Host.t)
  : t * Host.t :=
  fold_left (call rz) calls st.

End OpacityDot.

Definition createOpacityPulsingDot (isCarrierVehicleOnRoute isGrey : bool)
  : OpacityDot.t :=
  OpacityDot.mk size size size (Js.Uint8Array (size * size * 4))
                isCarrierVehicleOnRoute isGrey false None 0.

(** ** Option 5: the CSS marker (lines 279-307) *)

Module CssDot.

(** The object of lines 289-306, and with it the constant [colors] of the
    factory's scope (lines 281-285), which no method of the object reads. *)
Record t : Type := mk {
  width : nat;
  height : nat;
  data : list Z;
  closure_colors : Colors
}.

(** Lines 281-285; the hexadecimal colours are opaque. *)
Definition colors (isGrey isCarrierVehicleOnRoute : bool) : Colors :=
  if isGrey
  then mkColors (Canvas.rgba 55 64 83 1) (Canvas.rgba 55 64 83 1)
                (Canvas.rgba 237 240 240 1)
  else if isCarrierVehicleOnRoute
  then mkColors (Canvas.rgba 84 199 116 1) (Canvas.rgba 84 199 116 1)
                (Canvas.rgba 84 199 116 1)
  else mkColors (Canvas.rgba 219 55 19 1) (Canvas.rgba 219 55 19 1)
                (Canvas.rgba 237 240 240 1).

Definition render (s : t) : bool * t := (false, s).

(** [n] calls of [render] in a row: the values returned, and the object
    afterwards. *)
Fixpoint renders (n : nat) (s : t) : list bool * t :=
  match n with
  | O => ([], s)
  | S n' =>
      let '(b, s1) := render s in
      let '(bs, s2) := renders n' s1 in
      (b :: bs, s2)
  end.

End CssDot.

Definition createCSSPulsingDot (isCarrierVehicleOnRoute isGrey : bool) : CssDot.t :=
  CssDot.mk size size (Js.Uint8Array (size * size * 4))
            (CssDot.colors isGrey isCarrierVehicleOnRoute).

(** ** A rasterizer to run the model on

    Circles without anti-aliasing, composited source-over: a pixel is
    covered when its centre is. The theorems hold for every rasterizer;
    this one serves the closed examples. *)

Module SampleRaster.

Local Open Scope Q_scope.

(** A pixel while compositing: colour channels on [0, 255], alpha on
    [0, 1]. *)
Record Pixel : Type := pixel {
  pr : Q;
  pg : Q;
  pb : Q;
  pa : Q
}.

Definition transparent : Pixel := pixel 0 0 0 0.

Definition sq (q : Q) : Q := q * q.

Definition dist2 (c : Canvas.Circle) (px py : Q) : Q :=
  sq (px - Canvas.centre_x c) + sq (py - Canvas.centre_y c).

Definition in_disc (px py : Q) (c : Canvas.Circle) : bool :=
  Qle_bool (dist2 c px py) (sq (Canvas.radius c)).

Definition on_ring (w px py : Q) (c : Canvas.Circle) : bool :=
  Qle_bool (sq (Qmax 0 (Canvas.radius c - w / 2))) (dist2 c px py)
  && Qle_bool (dist2 c px py) (sq (Canvas.radius c + w / 2)).

Definition in_rect (x y w h px py : Q) : bool :=
  Qle_bool x px && Js.ltb px (x + w) && Qle_bool y py && Js.ltb py (y + h).

Definition clamp01 (a : Q) : Q := Qmax 0 (Qmin 1 a).

Definition over (src : Canvas.Rgba) (dst : Pixel) : Pixel :=
  let sa := clamp01 (Canvas.alpha src) in
  let oa := Qred (sa + pa dst * (1 - sa)) in
  if Qeq_bool oa 0 then transparent
  else
    let mix (s : Z) (d : Q) := Qred ((inject_Z s * sa + d * pa dst * (1 - sa)) / oa) in
    pixel (mix (Canvas.red src) (pr dst)) (mix (Canvas.green src) (pg dst))
          (mix (Canvas.blue src) (pb dst)) oa.

Definition apply (px py : Q) (p : Pixel) (op : Canvas.DrawOp) : Pixel :=
  match op with
  | Canvas.Clear x y w h => if in_rect x y w h px py then transparent else p
  | Canvas.Fill path c => if existsb (in_disc px py) path then over c p else p
  | Canvas.Stroke path c w => if existsb (on_ring w px py) path then over c p else p
  end.

Definition nearest (q : Q) : Z := Qfloor (q + (1 # 2)).

Definition discs : Canvas.Rasterizer :=
  fun _ _ ops x y c =>
    let px := inject_Z (Z.of_nat x) + (1 # 2) in
    let py := inject_Z (Z.of_nat y) + (1 # 2) in
    let p := fold_left (apply px py) ops transparent in
    match c with
    | 0%nat => nearest (pr p)
    | 1%nat => nearest (pg p)
    | 2%nat => nearest (pb p)
    | _ => nearest (pa p * 255)
    end.

End SampleRaster.

(** ** Objects to run the model on *)

Module Samples.

(** A reduced frame rate marker of the default colour, added to the map,
    its stop flag set. *)
Definition stopped_dot : LowFrameRate.t :=
  LowFrameRate.set_stopPulse true
    (LowFrameRate.onAdd (createLowFrameRatePulsingDot false false)).

(** A pre-rendered marker holding a ring of three one-byte frames. *)
Definition three_frames : list (list Z) := [[1%Z]; [2%Z]; [3%Z]].

Definition ring_dot : PreRendered.t :=
  PreRendered.set_preRenderedFrames three_frames
    (createPreRenderedPulsingDot false false).

(** An opacity marker, added to the map, its stop flag set. *)
Definition stopped_opacity_dot : OpacityDot.t :=
  OpacityDot.set_stopPulse true
    (snd (fst (OpacityDot.onAdd Host.plain (createOpacityPulsingDot false false)))).

(** An opacity marker whose context holds the circles [onAdd] means to
    draw. *)
Definition painted_opacity_dot : OpacityDot.t :=
  OpacityDot.set_context
    (OpacityDot.draw_static (createOpacityPulsingDot false false)
       (Canvas.createContext 75 75))
    (createOpacityPulsingDot false false).

(** A page whose script has bound a global named [context] to the context
    of a blank 75 by 75 canvas of its own. *)
Definition context_page : Host.t :=
  Host.mk 0 (Some (Canvas.createContext 75 75)).

(** The same marker after a tick at clock readings 1000 and 1100, and
    after a second one at 1200 and 1300. *)
Definition first_tick : OpacityDot.t :=
  snd (fst (OpacityDot.render SampleRaster.discs Host.plain
              painted_opacity_dot 1000 1100)).

Definition second_tick : OpacityDot.t :=
  snd (fst (OpacityDot.render SampleRaster.discs (Host.triggerRepaint Host.plain)
              first_tick 1200 1300)).

(** The reading of line 156 that gives it the meaning of line 89. *)
Definition as_line_89 : PreRendered.Line156 :=
  fun c t =>
    Some (Canvas.replace_alpha (outer c)
            (Js.toFixed2 (Js.minus (Js.double (6 # 10)) (Js.double t)))).

End Samples.

(** ** Vocabulary of the properties *)

Local Open Scope Q_scope.

(** The circles of lines 73-79 and 94. *)
Definition low_outer_circle (s : LowFrameRate.t) (t : Q) : Canvas.Circle :=
  let half := inject_Z (Z.of_nat (LowFrameRate.size s)) / 2 in
  Canvas.circle (inject_Z (Z.of_nat (LowFrameRate.width s)) / 2)
                (inject_Z (Z.of_nat (LowFrameRate.height s)) / 2)
                (half * (7 # 10) * t + half * (3 # 10)).

Definition low_inner_circle (s : LowFrameRate.t) : Canvas.Circle :=
  let half := inject_Z (Z.of_nat (LowFrameRate.size s)) / 2 in
  Canvas.circle (inject_Z (Z.of_nat (LowFrameRate.width s)) / 2)
                (inject_Z (Z.of_nat (LowFrameRate.height s)) / 2)
                (half * (3 # 10)).

Definition low_colors (s : LowFrameRate.t) : Colors :=
  LowFrameRate.colors (LowFrameRate.isGrey s) (LowFrameRate.isCarrierVehicleOnRoute s).

Local Close Scope Q_scope.

(** What every call of the reduced frame rate marker keeps. *)
Definition low_sized (s : LowFrameRate.t) : Prop :=
  LowFrameRate.width s = 75%nat /\ LowFrameRate.height s = 75%nat
  /\ length (LowFrameRate.data s) = (75 * 75 * 4)%nat.

(** What every call of the opacity marker keeps. *)
Definition opacity_sized (s : OpacityDot.t) : Prop :=
  OpacityDot.width s = 75%nat /\ OpacityDot.height s = 75%nat
  /\ length (OpacityDot.data s) = (75 * 75 * 4)%nat.

(** What every call of the pre-rendered marker keeps: the dimensions, a
    defined [data] of the right length, an index below the frame count,
    and a frame list that is null, empty, or twenty frames of the right
    length. *)
Definition pre_sized (s : PreRendered.t) : Prop :=
  PreRendered.width s = 75%nat /\ PreRendered.height s = 75%nat
  /\ (exists d, PreRendered.data s = Some d /\ length d = (75 * 75 * 4)%nat)
  /\ (PreRendered.currentFrame s < PreRendered.frameCount)%nat
  /\ match PreRendered.preRenderedFrames s with
     | None => True
     | Some f => (f = [] \/ length f = PreRendered.frameCount)
                 /\ Forall (fun fr => length fr = (75 * 75 * 4)%nat) f
     end.


(** The clock reading of a [render] call is at most [T]. *)
Definition low_clock_below (T : Q) (c : LowFrameRate.Call) : bool :=
  match c with
  | LowFrameRate.Render now _ => Qle_bool now T
  | _ => true
  end.

Definition pre_clock_below (T : Q) (c : PreRendered.Call) : bool :=
  match c with
  | PreRendered.Render now => Qle_bool now T
  | _ => true
  end.

Definition opacity_clock_below (T : Q) (c : OpacityDot.Call) : bool :=
  match c with
  | OpacityDot.Render now _ => Qle_bool now T
  | _ => true
  end.

(** The call does not give the page a global [context]. *)
Definition pre_binds_nothing (c : PreRendered.Call) : bool :=
  match c with
  | PreRendered.Bind (Some _) => false
  | _ => true
  end.

(** The number of repaints triggered so far, as a number. *)
Definition repaint_count (h : Host.t) : Q := inject_Z (Z.of_nat (Host.repaints h)).

(** What the gate keeps: each admitted tick moves [lastUpdate] forward by
    the interval at least, so the repaints since the count [r0], times the
    interval, stay below [lastUpdate], which stays below the bound [T] of
    the clock. *)
Definition low_paced (T r0 : Q) (st : LowFrameRate.t * Host.t) : Prop :=
  (repaint_count (snd st) * LowFrameRate.updateInterval
   <= r0 * LowFrameRate.updateInterval + LowFrameRate.lastUpdate (fst st)
   /\ LowFrameRate.lastUpdate (fst st) <= T)%Q.

Definition pre_paced (T r0 : Q) (st : PreRendered.t * Host.t) : Prop :=
  (repaint_count (snd st) * PreRendered.frameInterval
   <= r0 * PreRendered.frameInterval + PreRendered.lastUpdate (fst st)
   /\ PreRendered.lastUpdate (fst st) <= T)%Q.

Definition opacity_paced (T r0 : Q) (st : OpacityDot.t * Host.t) : Prop :=
  (repaint_count (snd st) * OpacityDot.updateInterval
   <= r0 * OpacityDot.updateInterval + OpacityDot.lastUpdate (fst st)
   /\ OpacityDot.lastUpdate (fst st) <= T)%Q.

(** The phase and the circles of frame [i] of the pre-rendered marker
    (lines 149-151, 155 and 160). *)
Definition pre_phase (i : nat) : Q :=
  inject_Z (Z.of_nat i) / inject_Z (Z.of_nat PreRendered.frameCount).

Definition pre_outer_circle (s : PreRendered.t) (i : nat) : Canvas.Circle :=
  let half := (inject_Z (Z.of_nat (PreRendered.size s)) / 2)%Q in
  Canvas.circle (inject_Z (Z.of_nat (PreRendered.width s)) / 2)
                (inject_Z (Z.of_nat (PreRendered.height s)) / 2)
                (half * (7 # 10) * pre_phase i + half * (3 # 10)).

Definition pre_inner_circle (s : PreRendered.t) : Canvas.Circle :=
  let half := (inject_Z (Z.of_nat (PreRendered.size s)) / 2)%Q in
  Canvas.circle (inject_Z (Z.of_nat (PreRendered.width s)) / 2)
                (inject_Z (Z.of_nat (PreRendered.height s)) / 2)
                (half * (3 # 10)).

(** The canvas of the marker itself has received no drawing call. *)
Definition opacity_unpainted (s : OpacityDot.t) : Prop :=
  OpacityDot.width s = 75%nat /\ OpacityDot.height s = 75%nat
  /\ (OpacityDot.context s = None
      \/ OpacityDot.context s = Some (Canvas.createContext 75 75)).

Definition pre_unpainted (s : PreRendered.t) : Prop :=
  PreRendered.width s = 75%nat /\ PreRendered.height s = 75%nat
  /\ (PreRendered.context s = None
      \/ PreRendered.context s = Some (Canvas.createContext 75 75)).

(** The pre-rendered marker on a page with no global [context]: no frame,
    the buffer and the index as built, [r] repaints so far. *)
Definition pre_idle (r : nat) (st : PreRendered.t * Host.t) : Prop :=
  Host.global_context (snd st) = None
  /\ Host.repaints (snd st) = r
  /\ PreRendered.data (fst st) = Some (Js.Uint8Array (75 * 75 * 4))
  /\ PreRendered.currentFrame (fst st) = 0%nat
  /\ (PreRendered.preRenderedFrames (fst st) = None
      \/ PreRendered.preRenderedFrames (fst st) = Some []).

(** What a pre-rendered marker holds in [data] after each of the [render]
    calls at the clock readings [times], in order. *)
Fixpoint pre_shown (times : list Q) (st : PreRendered.t * Host.t)
  : list (option (list Z)) :=
  match times with
  | [] => []
  | now :: rest =>
      let '(_, s, h) := PreRendered.render (snd st) (fst st) now in
      PreRendered.data s :: pre_shown rest (s, h)
  end.

(** The red, green and blue of a colour. *)
Definition rgb (c : Canvas.Rgba) : Z * Z * Z :=
  (Canvas.red c, Canvas.green c, Canvas.blue c).

(** The colours the drawing calls of a canvas were made with, oldest
    first: one per fill and one per stroke. *)
Definition op_rgb (op : Canvas.DrawOp) : list (Z * Z * Z) :=
  match op with
  | Canvas.Clear _ _ _ _ => []
  | Canvas.Fill _ c => [rgb c]
  | Canvas.Stroke _ c _ => [rgb c]
  end.

Definition palette (k : Canvas.Context2D) : list (Z * Z * Z) :=
  flat_map op_rgb (Canvas.drawn k).

(** The colour of the circles in the words of C6: grey when the grey flag
    is set, whatever the route flag; else green when the route flag is
    set; else red. *)
Definition claimed_triple (isGrey isCarrierVehicleOnRoute : bool) : Z * Z * Z :=
  if isGrey then (55, 64, 83)%Z
  else if isCarrierVehicleOnRoute then (84, 199, 116)%Z
  else (219, 55, 19)%Z.

(** The colour of the stroke that goes with it (lines 82-85). *)
Definition stroke_triple (isGrey isCarrierVehicleOnRoute : bool) : Z * Z * Z :=
  if isGrey then (237, 240, 240)%Z
  else if isCarrierVehicleOnRoute then (84, 199, 116)%Z
  else (237, 240, 240)%Z.

(** The binary64 rounding of a positive number, before [Js.double] puts
    the sign back. *)
Definition round_pos (a : Q) : Q :=
  (let e := Z.max (Js.ilog2 a - 52) (-1074) in
   inject_Z (Js.nearest_even (a / Js.pow2 e)) * Js.pow2 e)%Q.

(** * Properties *)

(** ** Numbers *)

Lemma ltb_true_iff (a b : Q) : Js.ltb a b = true <-> (a < b)%Q.
Proof.
  unfold Js.ltb. rewrite negb_true_iff. split; intro H.
  - apply Qnot_le_lt. intro L. apply Qle_bool_iff in L. congruence.
  - destruct (Qle_bool b a) eqn:E; [|reflexivity].
    apply Qle_bool_iff in E. exfalso. exact (Qlt_not_le _ _ H E).
Qed.

Lemma ltb_false_iff (a b : Q) : Js.ltb a b = false <-> (b <= a)%Q.
Proof.
  unfold Js.ltb. rewrite negb_false_iff. apply Qle_bool_iff.
Qed.

(** ** The throttle gate *)

Section Gate.

Variable rz : Canvas.Rasterizer.
Variable h : Host.t.

Lemma low_gate_closed (s : LowFrameRate.t) (now now2 : Q) :
  (now - LowFrameRate.lastUpdate s < LowFrameRate.updateInterval)%Q ->
  LowFrameRate.render rz h s now now2 = (Js.Returned false, s, h).
Proof.
  intro H. unfold LowFrameRate.render.
  apply ltb_true_iff in H. rewrite H. reflexivity.
Qed.

Lemma low_gate_open_time (s : LowFrameRate.t) (now now2 : Q) :
  (LowFrameRate.updateInterval <= now - LowFrameRate.lastUpdate s)%Q ->
  LowFrameRate.lastUpdate (snd (fst (LowFrameRate.render rz h s now now2))) = now.
Proof.
  intro H. unfold LowFrameRate.render.
  apply ltb_false_iff in H. rewrite H.
  destruct (LowFrameRate.context _); reflexivity.
Qed.

Lemma pre_gate_closed (s : PreRendered.t) (now : Q) :
  (now - PreRendered.lastUpdate s < PreRendered.frameInterval)%Q ->
  PreRendered.render h s now = (false, s, h).
Proof.
  intro H. unfold PreRendered.render.
  apply ltb_true_iff in H. rewrite H. reflexivity.
Qed.

Lemma pre_gate_open_time (s : PreRendered.t) (now : Q) :
  (PreRendered.frameInterval <= now - PreRendered.lastUpdate s)%Q ->
  PreRendered.lastUpdate (snd (fst (PreRendered.render h s now))) = now.
Proof.
  intro H. unfold PreRendered.render.
  apply ltb_false_iff in H. rewrite H.
  destruct (PreRendered.preRenderedFrames _) as [f|]; [|reflexivity].
  destruct (0 <? length f)%nat; reflexivity.
Qed.

Lemma opacity_gate_closed (s : OpacityDot.t) (now now2 : Q) :
  (now - OpacityDot.lastUpdate s < OpacityDot.updateInterval)%Q ->
  OpacityDot.render rz h s now now2 = (Js.Returned false, s, h).
Proof.
  intro H. unfold OpacityDot.render.
  apply ltb_true_iff in H. rewrite H. reflexivity.
Qed.

Lemma opacity_gate_open_time (s : OpacityDot.t) (now now2 : Q) :
  (OpacityDot.updateInterval <= now - OpacityDot.lastUpdate s)%Q ->
  OpacityDot.lastUpdate (snd (fst (OpacityDot.render rz h s now now2))) = now.
Proof.
  intro H. unfold OpacityDot.render.
  apply ltb_false_iff in H. rewrite H.
  unfold OpacityDot.set_lastUpdate at 1 3.
  cbn [OpacityDot.stopPulse OpacityDot.context].
  destruct (OpacityDot.stopPulse s); [reflexivity|].
  destruct (OpacityDot.context s); reflexivity.
Qed.

End Gate.

(** C1, first half. In each throttled variant (intervals 100 ms, 100 ms
    and 50 ms), a [render] whose clock reading is less than the interval
    after [lastUpdate], the time of the last admitted tick, returns false
    and leaves the object (data buffer, time stamp, context with its
    drawing calls) and the host (repaint count) exactly as they were.
    Second half, for two calls in a row: when the first is admitted at
    [now], a second one less than the interval later returns false and
    changes nothing; when both fall within the interval after the last
    admitted tick, the second (like the first) returns false and changes
    nothing; the static and CSS variants return false on every call. *)
Theorem throttle_gate :
  forall (rz : Canvas.Rasterizer) (h : Host.t) (now now2 : Q),
    (LowFrameRate.updateInterval == 100 /\ PreRendered.frameInterval == 100
     /\ OpacityDot.updateInterval == 50)%Q
    /\ (forall s,
          (now - LowFrameRate.lastUpdate s < LowFrameRate.updateInterval)%Q ->
          LowFrameRate.render rz h s now now2 = (Js.Returned false, s, h))
    /\ (forall s,
          (now - PreRendered.lastUpdate s < PreRendered.frameInterval)%Q ->
          PreRendered.render h s now = (false, s, h))
    /\ (forall s,
          (now - OpacityDot.lastUpdate s < OpacityDot.updateInterval)%Q ->
          OpacityDot.render rz h s now now2 = (Js.Returned false, s, h))
    /\ (forall s next next2,
          (LowFrameRate.updateInterval <= now - LowFrameRate.lastUpdate s)%Q ->
          (next - now < LowFrameRate.updateInterval)%Q ->
          let '(_, s1, h1) := LowFrameRate.render rz h s now now2 in
          LowFrameRate.render rz h1 s1 next next2 = (Js.Returned false, s1, h1))
    /\ (forall s next,
          (PreRendered.frameInterval <= now - PreRendered.lastUpdate s)%Q ->
          (next - now < PreRendered.frameInterval)%Q ->
          let '(_, s1, h1) := PreRendered.render h s now in
          PreRendered.render h1 s1 next = (false, s1, h1))
    /\ (forall s next next2,
          (OpacityDot.updateInterval <= now - OpacityDot.lastUpdate s)%Q ->
          (next - now < OpacityDot.updateInterval)%Q ->
          let '(_, s1, h1) := OpacityDot.render rz h s now now2 in
          OpacityDot.render rz h1 s1 next next2 = (Js.Returned false, s1, h1))
    /\ (forall s next next2,
          (now - LowFrameRate.lastUpdate s < LowFrameRate.updateInterval)%Q ->
          (next - LowFrameRate.lastUpdate s < LowFrameRate.updateInterval)%Q ->
          let '(_, s1, h1) := LowFrameRate.render rz h s now now2 in
          LowFrameRate.render rz h1 s1 next next2 = (Js.Returned false, s1, h1))
    /\ (forall s next,
          (now - PreRendered.lastUpdate s < PreRendered.frameInterval)%Q ->
          (next - PreRendered.lastUpdate s < PreRendered.frameInterval)%Q ->
          let '(_, s1, h1) := PreRendered.render h s now in
          PreRendered.render h1 s1 next = (false, s1, h1))
    /\ (forall s next next2,
          (now - OpacityDot.lastUpdate s < OpacityDot.updateInterval)%Q ->
          (next - OpacityDot.lastUpdate s < OpacityDot.updateInterval)%Q ->
          let '(_, s1, h1) := OpacityDot.render rz h s now now2 in
          OpacityDot.render rz h1 s1 next next2 = (Js.Returned false, s1, h1))
    /\ (forall s, fst (StaticDot.render (snd (StaticDot.render s))) = false)
    /\ (forall s, fst (CssDot.render (snd (CssDot.render s))) = false).
Proof.
  intros rz h now now2.
  split; [repeat split; reflexivity|].
  split; [intros; now apply low_gate_closed|].
  split; [intros; now apply pre_gate_closed|].
  split; [intros; now apply opacity_gate_closed|].
  split.
  { intros s next next2 Hopen Hnext.
    pose proof (low_gate_open_time rz h s now now2 Hopen) as Ht.
    destruct (LowFrameRate.render rz h s now now2) as [[o s1] h1].
    cbn [fst snd] in Ht. apply low_gate_closed. now rewrite Ht. }
  split.
  { intros s next Hopen Hnext.
    pose proof (pre_gate_open_time h s now Hopen) as Ht.
    destruct (PreRendered.render h s now) as [[o s1] h1].
    cbn [fst snd] in Ht. apply pre_gate_closed. now rewrite Ht. }
  split.
  { intros s next next2 Hopen Hnext.
    pose proof (opacity_gate_open_time rz h s now now2 Hopen) as Ht.
    destruct (OpacityDot.render rz h s now now2) as [[o s1] h1].
    cbn [fst snd] in Ht. apply opacity_gate_closed. now rewrite Ht. }
  split.
  { intros s next next2 Hnow Hnext.
    rewrite (low_gate_closed rz h s now now2 Hnow). now apply low_gate_closed. }
  split.
  { intros s next Hnow Hnext.
    rewrite (pre_gate_closed h s now Hnow). now apply pre_gate_closed. }
  split.
  { intros s next next2 Hnow Hnext.
    rewrite (opacity_gate_closed rz h s now now2 Hnow). now apply opacity_gate_closed. }
  split; reflexivity.
Qed.

Lemma throttle_gate_witness :
  LowFrameRate.render SampleRaster.discs Host.plain
    (LowFrameRate.set_lastUpdate 1000 (createLowFrameRatePulsingDot false false))
    1050 1051
  = (Js.Returned false,
     LowFrameRate.set_lastUpdate 1000 (createLowFrameRatePulsingDot false false),
     Host.plain)
  /\ PreRendered.render Host.plain
       (PreRendered.set_lastUpdate 1000 (createPreRenderedPulsingDot false false))
       1099
     = (false,
        PreRendered.set_lastUpdate 1000 (createPreRenderedPulsingDot false false),
        Host.plain)
  /\ OpacityDot.render SampleRaster.discs Host.plain
       (OpacityDot.set_lastUpdate 1000 (createOpacityPulsingDot false false))
       1049 1049
     = (Js.Returned false,
        OpacityDot.set_lastUpdate 1000 (createOpacityPulsingDot false false),
        Host.plain).
Proof.
  split; [|split].
  - apply (proj1 (proj2 (throttle_gate SampleRaster.discs Host.plain 1050 1051))).
    reflexivity.
  - apply (proj1 (proj2 (proj2 (throttle_gate SampleRaster.discs Host.plain 1099 1099)))).
    reflexivity.
  - apply (proj1 (proj2 (proj2 (proj2
             (throttle_gate SampleRaster.discs Host.plain 1049 1049))))).
    reflexivity.
Defined.

(** ** The static marker *)

Lemma static_renders_false (n : nat) (s : StaticDot.t) :
  StaticDot.renders n s = (repeat false n, s).
Proof.
  induction n as [|n IH]; [reflexivity|].
  cbn [StaticDot.renders StaticDot.render repeat]. now rewrite IH.
Qed.

(** C8. The static marker starts with a buffer of 75 * 75 * 4 zero bytes;
    any number of [render] calls, whenever they are made (the method reads
    no clock), all return false and leave the object, its buffer included,
    as it was built. *)
Theorem static_never_changes :
  forall (isCarrierVehicleOnRoute isGrey : bool) (n : nat),
    StaticDot.data (createStaticPulsingDot isCarrierVehicleOnRoute isGrey)
    = repeat 0%Z (75 * 75 * 4)
    /\ StaticDot.renders n (createStaticPulsingDot isCarrierVehicleOnRoute isGrey)
       = (repeat false n, createStaticPulsingDot isCarrierVehicleOnRoute isGrey).
Proof.
  intros a b n. split.
  - reflexivity.
  - apply static_renders_false.
Qed.

(** ** The frame ring of the pre-rendered marker *)

Section FrameRing.

Variable frames : list (list Z).
Hypothesis frames_nonempty : frames <> [].

Lemma frames_positive : (0 <? length frames)%nat = true.
Proof.
  apply Nat.ltb_lt. destruct frames; [congruence|cbn; lia].
Qed.

(** One admitted tick, as an equation. *)
Lemma pre_render_admitted (h : Host.t) (s : PreRendered.t) (now : Q) :
  PreRendered.preRenderedFrames s = Some frames ->
  Js.ltb (now - PreRendered.lastUpdate s) PreRendered.frameInterval = false ->
  PreRendered.render h s now
  = (true,
     PreRendered.set_currentFrame
       ((PreRendered.currentFrame s + 1) mod length frames)
       (PreRendered.set_data (nth_error frames (PreRendered.currentFrame s))
          (PreRendered.set_lastUpdate now s)),
     Host.triggerRepaint h).
Proof.
  intros Hf Hgate. unfold PreRendered.render. rewrite Hgate.
  unfold PreRendered.set_lastUpdate at 1.
  cbn [PreRendered.preRenderedFrames]. rewrite Hf, frames_positive.
  reflexivity.
Qed.

(** A run of admitted ticks moves the index by their number, modulo the
    number of frames, and triggers one repaint per tick. *)
Lemma pre_renders_admitted (times : list Q) :
  forall (s : PreRendered.t) (h : Host.t),
    PreRendered.preRenderedFrames s = Some frames ->
    (PreRendered.currentFrame s < length frames)%nat ->
    PreRendered.admitted (PreRendered.lastUpdate s) times = true ->
    let st := PreRendered.renders times (s, h) in
    PreRendered.currentFrame (fst st)
    = ((PreRendered.currentFrame s + length times) mod length frames)%nat
    /\ PreRendered.preRenderedFrames (fst st) = Some frames
    /\ Host.repaints (snd st) = (Host.repaints h + length times)%nat.
Proof.
  induction times as [|now rest IH]; intros s h Hf Hlt Hadm.
  - cbn. rewrite Nat.add_0_r, Nat.mod_small by exact Hlt.
    repeat split; [exact Hf | lia].
  - cbn [PreRendered.admitted] in Hadm.
    apply andb_true_iff in Hadm. destruct Hadm as [Hgate Hrest].
    apply negb_true_iff in Hgate.
    unfold PreRendered.renders. cbn [fold_left fst snd].
    rewrite (pre_render_admitted h s now Hf Hgate). cbv iota beta.
    match goal with
    | |- context [fold_left _ rest (?s1, ?h1)] =>
        change (fold_left _ rest (s1, h1)) with (PreRendered.renders rest (s1, h1));
        specialize (IH s1 h1 Hf)
    end.
    cbn [PreRendered.set_currentFrame PreRendered.currentFrame
         PreRendered.lastUpdate PreRendered.set_data
         PreRendered.set_lastUpdate] in IH.
    assert (Hn : length frames <> 0%nat)
      by (destruct frames; [congruence|cbn; lia]).
    specialize (IH (Nat.mod_upper_bound _ _ Hn) Hrest).
    destruct IH as (Hc & Hfs & Hr).
    split; [|split].
    + rewrite Hc, Nat.Div0.add_mod_idemp_l. cbn [length]. f_equal. lia.
    + exact Hfs.
    + rewrite Hr. cbn [Host.triggerRepaint Host.repaints length]. lia.
Qed.

End FrameRing.

(** C3. In the pre-rendered marker with [N > 0] frames, an admitted tick
    returns true, puts the frame at the current index into [data], and
    moves the index to its successor modulo [N]. Hence, from index 0, a
    run of admitted ticks brings the index back to 0 when it has [N] ticks,
    and not when it has fewer (and at least one). *)
Theorem frame_cycling :
  forall (frames : list (list Z)) (h : Host.t) (s : PreRendered.t),
    frames <> [] ->
    PreRendered.preRenderedFrames s = Some frames ->
    (PreRendered.currentFrame s < length frames)%nat ->
    (forall now,
        (PreRendered.frameInterval <= now - PreRendered.lastUpdate s)%Q ->
        exists frame s',
          PreRendered.render h s now = (true, s', Host.triggerRepaint h)
          /\ nth_error frames (PreRendered.currentFrame s) = Some frame
          /\ PreRendered.data s' = Some frame
          /\ PreRendered.currentFrame s'
             = ((PreRendered.currentFrame s + 1) mod length frames)%nat
          /\ PreRendered.preRenderedFrames s' = Some frames)
    /\ (forall times,
          PreRendered.currentFrame s = 0%nat ->
          PreRendered.admitted (PreRendered.lastUpdate s) times = true ->
          let s' := fst (PreRendered.renders times (s, h)) in
          (length times = length frames -> PreRendered.currentFrame s' = 0%nat)
          /\ (0 < length times < length frames ->
              PreRendered.currentFrame s' = length times
              /\ PreRendered.currentFrame s' <> 0)%nat).
Proof.
  intros frames h s Hne Hf Hlt. split.
  - intros now Hgate. apply ltb_false_iff in Hgate.
    destruct (nth_error frames (PreRendered.currentFrame s)) as [frame|] eqn:E.
    + exists frame. eexists. split; [|split; [reflexivity|]].
      * rewrite (pre_render_admitted frames Hne h s now Hf Hgate). reflexivity.
      * cbn. rewrite E. repeat split. exact Hf.
    + apply nth_error_None in E. lia.
  - intros times H0 Hadm s'.
    destruct (pre_renders_admitted frames Hne times s h Hf Hlt Hadm) as (Hc & _ & _).
    fold s' in Hc. rewrite H0 in Hc. cbn [Nat.add] in Hc. split.
    + intro Hlen. rewrite Hc, Hlen. apply Nat.Div0.mod_same.
    + intros [Hpos Hless]. rewrite Hc, Nat.mod_small by exact Hless. split; lia.
Qed.

(** ** The size of the pixel buffer *)

Lemma flat_map_length_const {A B : Type} (f : A -> list B) (n : nat) (l : list A) :
  (forall x, length (f x) = n) -> length (flat_map f l) = (length l * n)%nat.
Proof.
  intro H. induction l as [|x l IH]; [reflexivity|].
  cbn [flat_map length]. rewrite length_app, H, IH. lia.
Qed.

Lemma getImageData_length (rz : Canvas.Rasterizer) (k : Canvas.Context2D) (sw sh : nat) :
  length (Canvas.getImageData rz k sw sh) = (sw * sh * 4)%nat.
Proof.
  unfold Canvas.getImageData.
  rewrite (flat_map_length_const _ (sw * 4)%nat).
  - rewrite length_seq. lia.
  - intro y. rewrite (flat_map_length_const _ 4%nat).
    + now rewrite length_seq.
    + reflexivity.
Qed.

Lemma Uint8Array_length (n : nat) : length (Js.Uint8Array n) = n.
Proof. apply repeat_length. Qed.

(** Induction over a byte array pixel by pixel. *)
Lemma list_ind4 {A : Type} (P : list A -> Prop) :
  P [] -> (forall a, P [a]) -> (forall a b, P [a; b]) ->
  (forall a b c, P [a; b; c]) ->
  (forall a b c d l, P l -> P (a :: b :: c :: d :: l)) ->
  forall l, P l.
Proof.
  intros H0 H1 H2 H3 H4. fix IH 1.
  intros [|a [|b [|c [|d l]]]];
    [apply H0 | apply H1 | apply H2 | apply H3 | apply H4, IH].
Qed.

Lemma scale_alpha_length (o : R) (d : list Z) :
  length (OpacityDot.scale_alpha o d) = length d.
Proof.
  induction d as [| | | |a b c e l IH] using list_ind4; try reflexivity.
  cbn [OpacityDot.scale_alpha length]. now rewrite IH.
Qed.

Section LowFrameRateSize.

Variable rz : Canvas.Rasterizer.

Lemma low_call_sized (st : LowFrameRate.t * Host.t) (c : LowFrameRate.Call) :
  low_sized (fst st) -> low_sized (fst (LowFrameRate.call rz st c)).
Proof.
  destruct st as [s h]. cbn [fst]. intros (Hw & Hh & Hd).
  destruct c as [|now now2|b].
  - repeat split; assumption.
  - cbn [LowFrameRate.call fst snd]. unfold LowFrameRate.render.
    destruct (Js.ltb _ _); [repeat split; assumption|].
    unfold LowFrameRate.set_lastUpdate at 1. cbn [LowFrameRate.context].
    destruct (LowFrameRate.context s) as [k|]; [|repeat split; assumption].
    cbn [fst]. unfold low_sized.
    cbn [LowFrameRate.set_data LowFrameRate.width LowFrameRate.height
         LowFrameRate.data LowFrameRate.set_context LowFrameRate.set_lastUpdate].
    rewrite getImageData_length, Hw, Hh. repeat split.
  - repeat split; assumption.
Qed.

Lemma low_run_sized (calls : list LowFrameRate.Call) :
  forall st, low_sized (fst st) -> low_sized (fst (LowFrameRate.run rz calls st)).
Proof.
  induction calls as [|c calls IH]; intros st H; [exact H|].
  cbn [LowFrameRate.run fold_left]. apply IH, low_call_sized, H.
Qed.

End LowFrameRateSize.

Section OpacitySize.

Variable rz : Canvas.Rasterizer.

Lemma opacity_call_sized (st : OpacityDot.t * Host.t) (c : OpacityDot.Call) :
  opacity_sized (fst st) -> opacity_sized (fst (OpacityDot.call rz st c)).
Proof.
  destruct st as [s h]. cbn [fst]. intros (Hw & Hh & Hd).
  destruct c as [|now now2|b|k].
  - cbn [OpacityDot.call fst snd]. unfold OpacityDot.onAdd.
    destruct (Host.global_context h); repeat split; assumption.
  - cbn [OpacityDot.call fst snd]. unfold OpacityDot.render.
    destruct (Js.ltb _ _); [repeat split; assumption|].
    unfold OpacityDot.set_lastUpdate at 1. cbn [OpacityDot.stopPulse].
    destruct (OpacityDot.stopPulse s); [repeat split; assumption|].
    unfold OpacityDot.set_lastUpdate at 1. cbn [OpacityDot.context].
    destruct (OpacityDot.context s) as [k|]; [|repeat split; assumption].
    cbn [fst]. unfold opacity_sized.
    cbn [OpacityDot.set_data OpacityDot.width OpacityDot.height
         OpacityDot.data OpacityDot.set_lastUpdate].
    rewrite scale_alpha_length, getImageData_length, Hw, Hh. repeat split.
  - repeat split; assumption.
  - repeat split; assumption.
Qed.

Lemma opacity_run_sized (calls : list OpacityDot.Call) :
  forall st, opacity_sized (fst st) -> opacity_sized (fst (OpacityDot.run rz calls st)).
Proof.
  induction calls as [|c calls IH]; intros st H; [exact H|].
  cbn [OpacityDot.run fold_left]. apply IH, opacity_call_sized, H.
Qed.

End OpacitySize.

(** ** Setting up the pre-rendered marker *)

Section PreRender.

Variable rz : Canvas.Rasterizer.
Variable line156 : PreRendered.Line156.

Lemma set_frames_same (s : PreRendered.t) (f : list (list Z)) :
  PreRendered.preRenderedFrames s = Some f ->
  PreRendered.set_preRenderedFrames f s = s.
Proof.
  destruct s. cbn. intros ->. reflexivity.
Qed.

(** The loop changes nothing of the object but the list of frames, to
    which it appends; with a global context it runs to its end and appends
    a frame of [width * height * 4] bytes per round, without one it throws
    in its first round. *)
Lemma prerender_spec (todo : list nat) :
  forall (s : PreRendered.t) (h : Host.t) (f : list (list Z)),
    PreRendered.preRenderedFrames s = Some f ->
    exists o h' new,
      PreRendered.prerender rz line156 todo s h
      = (o, PreRendered.set_preRenderedFrames (f ++ new) s, h')
      /\ Forall (fun fr => length fr
                           = (PreRendered.width s * PreRendered.height s * 4)%nat) new
      /\ match Host.global_context h with
         | Some _ => o = Js.Returned tt /\ length new = length todo
         | None => new = [] /\ h' = h
                   /\ o = match todo with
                          | [] => Js.Returned tt
                          | _ :: _ => Js.Threw Js.ReferenceError
                          end
         end.
Proof.
  induction todo as [|i rest IH]; intros s h f Hf.
  - exists (Js.Returned tt), h, []. cbn [PreRendered.prerender].
    rewrite app_nil_r, (set_frames_same s f Hf).
    split; [reflexivity|]. split; [constructor|].
    destruct (Host.global_context h); repeat split.
  - cbn [PreRendered.prerender].
    destruct (Host.global_context h) as [k|] eqn:Hk.
    + rewrite Hf.
      set (k' := PreRendered.draw_frame line156 s i k).
      set (frame := Canvas.getImageData rz k' (PreRendered.width s) (PreRendered.height s)).
      destruct (IH (PreRendered.set_preRenderedFrames (f ++ [frame]) s)
                   (Host.set_global_context k' h) (f ++ [frame]) eq_refl)
        as (o & h' & new & Heq & Hall & Hres).
      cbn [Host.set_global_context Host.global_context] in Hres.
      destruct Hres as [-> Hlen].
      exists (Js.Returned tt), h', (frame :: new).
      split; [|split; [|split]].
      * rewrite Heq. rewrite <- app_assoc. reflexivity.
      * constructor; [apply getImageData_length|exact Hall].
      * reflexivity.
      * cbn [length]. now rewrite Hlen.
    + exists (Js.Threw Js.ReferenceError), h, [].
      rewrite app_nil_r, (set_frames_same s f Hf).
      repeat split. constructor.
Qed.

Lemma prerender_no_global (i : nat) (rest : list nat) (h : Host.t) (s : PreRendered.t) :
  Host.global_context h = None ->
  PreRendered.prerender rz line156 (i :: rest) s h = (Js.Threw Js.ReferenceError, s, h).
Proof.
  intro Hk. change (PreRendered.prerender rz line156 (i :: rest) s h)
    with (match Host.global_context h with
          | None => (Js.Threw Js.ReferenceError, s, h)
          | Some k =>
              let k := PreRendered.draw_frame line156 s i k in
              let h := Host.set_global_context k h in
              let frame := Canvas.getImageData rz k (PreRendered.width s)
                                               (PreRendered.height s) in
              match PreRendered.preRenderedFrames s with
              | None => (Js.Threw Js.TypeError, s, h)
              | Some f =>
                  PreRendered.prerender rz line156 rest
                    (PreRendered.set_preRenderedFrames (f ++ [frame]) s) h
              end
          end).
  now rewrite Hk.
Qed.

(** [onAdd] on a page with no global [context]. *)
Lemma pre_onAdd_no_global (h : Host.t) (s : PreRendered.t) :
  Host.global_context h = None ->
  PreRendered.onAdd rz line156 h s
  = (Js.Threw Js.ReferenceError,
     PreRendered.set_preRenderedFrames []
       (PreRendered.set_context
          (Canvas.createContext (PreRendered.width s) (PreRendered.height s)) s),
     h).
Proof.
  intro Hk. unfold PreRendered.onAdd.
  change (seq 0 PreRendered.frameCount) with (0 :: seq 1 19)%nat.
  now apply prerender_no_global.
Qed.

(** [onAdd] on a page that has a global [context]. *)
Lemma pre_onAdd_global (h : Host.t) (s : PreRendered.t) (k : Canvas.Context2D) :
  Host.global_context h = Some k ->
  exists h' frames,
    PreRendered.onAdd rz line156 h s
    = (Js.Returned tt,
       PreRendered.set_preRenderedFrames frames
         (PreRendered.set_context
            (Canvas.createContext (PreRendered.width s) (PreRendered.height s)) s),
       h')
    /\ length frames = PreRendered.frameCount
    /\ Forall (fun fr => length fr
                         = (PreRendered.width s * PreRendered.height s * 4)%nat) frames.
Proof.
  intro Hk. unfold PreRendered.onAdd.
  set (s0 := PreRendered.set_preRenderedFrames [] _).
  destruct (prerender_spec (seq 0 PreRendered.frameCount) s0 h [] eq_refl)
    as (o & h' & new & Heq & Hall & Hres).
  rewrite Hk in Hres. destruct Hres as [-> Hlen].
  exists h', new. rewrite Heq. rewrite length_seq in Hlen.
  split; [reflexivity|]. split; [exact Hlen|exact Hall].
Qed.

End PreRender.

Section PreRenderedSize.

Variable rz : Canvas.Rasterizer.
Variable line156 : PreRendered.Line156.

Lemma pre_call_sized (st : PreRendered.t * Host.t) (c : PreRendered.Call) :
  pre_sized (fst st) -> pre_sized (fst (PreRendered.call rz line156 st c)).
Proof.
  destruct st as [s h]. cbn [fst]. intros (Hw & Hh & Hd & Hc & Hf).
  destruct c as [|now|b|k].
  - cbn [PreRendered.call fst snd].
    destruct (Host.global_context h) as [k|] eqn:Hk.
    + destruct (pre_onAdd_global rz line156 h s k Hk) as (h' & frames & -> & Hlen & Hall).
      cbn [fst]. rewrite Hw, Hh in Hall.
      repeat split; try assumption. now right.
    + rewrite (pre_onAdd_no_global rz line156 h s Hk). cbn [fst].
      repeat split; try assumption; [now left|constructor].
  - cbn [PreRendered.call fst snd]. unfold PreRendered.render.
    destruct (Js.ltb _ _); [repeat split; assumption|].
    unfold PreRendered.set_lastUpdate at 1. cbn [PreRendered.preRenderedFrames].
    destruct (PreRendered.preRenderedFrames s) as [f|] eqn:Ef;
      [|repeat split; try assumption; cbn; now rewrite Ef].
    destruct (0 <? length f)%nat eqn:Epos;
      [|repeat split; try assumption; cbn; now rewrite Ef].
    apply Nat.ltb_lt in Epos. destruct Hf as [[->| Hlen] Hall]; [cbn in Epos; lia|].
    cbn [fst]. unfold pre_sized.
    cbn [PreRendered.set_currentFrame PreRendered.set_data PreRendered.set_lastUpdate
         PreRendered.width PreRendered.height PreRendered.data
         PreRendered.currentFrame PreRendered.preRenderedFrames].
    rewrite Ef. repeat split; try assumption.
    + destruct (nth_error f (PreRendered.currentFrame s)) as [fr|] eqn:En.
      * exists fr. split; [reflexivity|].
        rewrite Forall_forall in Hall. apply Hall. eapply nth_error_In, En.
      * apply nth_error_None in En. lia.
    + rewrite Hlen. apply Nat.mod_upper_bound. discriminate.
    + now right.
  - repeat split; assumption.
  - repeat split; assumption.
Qed.

Lemma pre_run_sized (calls : list PreRendered.Call) :
  forall st, pre_sized (fst st) -> pre_sized (fst (PreRendered.run rz line156 calls st)).
Proof.
  induction calls as [|c calls IH]; intros st H; [exact H|].
  cbn [PreRendered.run fold_left]. apply IH, pre_call_sized, H.
Qed.

End PreRenderedSize.

Lemma css_renders_false (n : nat) (s : CssDot.t) :
  CssDot.renders n s = (repeat false n, s).
Proof.
  induction n as [|n IH]; [reflexivity|].
  cbn [CssDot.renders CssDot.render repeat]. now rewrite IH.
Qed.

(** C7. Each of the five factories builds an object whose [data] has
    75 * 75 * 4 bytes, and after any sequence of calls of its hooks
    ([onAdd], [render] at any clock readings, whatever they return or
    throw), of writes to the stop flag and of changes to the page's global
    [context], [data] still has that many bytes. *)
Theorem buffer_size_invariant :
  forall (rz : Canvas.Rasterizer) (line156 : PreRendered.Line156) (h : Host.t)
         (isCarrierVehicleOnRoute isGrey : bool),
    (forall n,
        length (StaticDot.data
                  (snd (StaticDot.renders n
                          (createStaticPulsingDot isCarrierVehicleOnRoute isGrey))))
        = (75 * 75 * 4)%nat)
    /\ (forall calls,
          length (LowFrameRate.data
                    (fst (LowFrameRate.run rz calls
                            (createLowFrameRatePulsingDot isCarrierVehicleOnRoute isGrey, h))))
          = (75 * 75 * 4)%nat)
    /\ (forall calls,
          exists d,
            PreRendered.data
              (fst (PreRendered.run rz line156 calls
                      (createPreRenderedPulsingDot isCarrierVehicleOnRoute isGrey, h)))
            = Some d
            /\ length d = (75 * 75 * 4)%nat)
    /\ (forall calls,
          length (OpacityDot.data
                    (fst (OpacityDot.run rz calls
                            (createOpacityPulsingDot isCarrierVehicleOnRoute isGrey, h))))
          = (75 * 75 * 4)%nat)
    /\ (forall n,
          length (CssDot.data
                    (snd (CssDot.renders n
                            (createCSSPulsingDot isCarrierVehicleOnRoute isGrey))))
          = (75 * 75 * 4)%nat).
Proof.
  intros rz line156 h a b. split; [|split; [|split; [|split]]].
  - intro n. rewrite static_renders_false. apply Uint8Array_length.
  - intro calls.
    apply (low_run_sized rz calls (createLowFrameRatePulsingDot a b, h)).
    split; [reflexivity|]. split; [reflexivity|]. apply Uint8Array_length.
  - intro calls.
    apply (pre_run_sized rz line156 calls (createPreRenderedPulsingDot a b, h)).
    split; [reflexivity|]. split; [reflexivity|]. split; [|split; [|exact I]].
    + eexists. split; [reflexivity|apply Uint8Array_length].
    + unfold PreRendered.frameCount, createPreRenderedPulsingDot.
      cbn [fst PreRendered.currentFrame].
      lia.
  - intro calls.
    apply (opacity_run_sized rz calls (createOpacityPulsingDot a b, h)).
    split; [reflexivity|]. split; [reflexivity|]. apply Uint8Array_length.
  - intro n. rewrite css_renders_false. apply Uint8Array_length.
Qed.

(** C4, on the code as written. On a page with no global [context] the
    [onAdd] of the pre-rendered marker throws in the first round of its
    loop and leaves [preRenderedFrames] empty; every later [render]
    returns false, leaves [data] as built, and triggers no repaint. *)
Theorem prerendered_onAdd_throws :
  forall (rz : Canvas.Rasterizer) (line156 : PreRendered.Line156)
         (isCarrierVehicleOnRoute isGrey : bool) (now : Q),
    let '(o, s, h) :=
      PreRendered.onAdd rz line156 Host.plain
        (createPreRenderedPulsingDot isCarrierVehicleOnRoute isGrey) in
    o = Js.Threw Js.ReferenceError
    /\ PreRendered.preRenderedFrames s = Some []
    /\ h = Host.plain
    /\ fst (fst (PreRendered.render h s now)) = false
    /\ PreRendered.data (snd (fst (PreRendered.render h s now)))
       = Some (Js.Uint8Array (75 * 75 * 4))
    /\ snd (PreRendered.render h s now) = Host.plain.
Proof.
  intros rz line156 a b now.
  rewrite (pre_onAdd_no_global rz line156 Host.plain _ eq_refl).
  split; [reflexivity|]. split; [reflexivity|]. split; [reflexivity|].
  unfold PreRendered.render.
  destruct (Js.ltb _ _); repeat split.
Qed.

(** ** An admitted tick of the reduced frame rate marker *)

Section LowFrameRateTick.

Variable rz : Canvas.Rasterizer.
Variable h : Host.t.

Local Open Scope Q_scope.

(** The four pixel-changing calls of one tick, in order. *)
Lemma low_draw_drawn (s : LowFrameRate.t) (t : Q) (k : Canvas.Context2D) :
  Canvas.drawn (LowFrameRate.draw s t k)
  = Canvas.drawn k
    ++ [Canvas.Clear 0 0 (inject_Z (Z.of_nat (LowFrameRate.width s)))
                     (inject_Z (Z.of_nat (LowFrameRate.height s)));
        Canvas.Fill [low_outer_circle s t]
                    (LowFrameRate.outer_fill (LowFrameRate.stopPulse s) (low_colors s) t);
        Canvas.Fill [low_inner_circle s] (inner (low_colors s));
        Canvas.Stroke [low_inner_circle s] (stroke (low_colors s)) 2].
Proof.
  unfold LowFrameRate.draw. cbn -[Qmult Qdiv Qplus inject_Z LowFrameRate.colors
                                   LowFrameRate.outer_fill].
  now rewrite <- !app_assoc.
Qed.

Lemma low_render_admitted (s : LowFrameRate.t) (k : Canvas.Context2D) (now now2 : Q) :
  LowFrameRate.context s = Some k ->
  (LowFrameRate.updateInterval <= now - LowFrameRate.lastUpdate s) ->
  let k' := LowFrameRate.draw s (LowFrameRate.phase now2) k in
  LowFrameRate.render rz h s now now2
  = (Js.Returned true,
     LowFrameRate.set_data
       (Canvas.getImageData rz k' (LowFrameRate.width s) (LowFrameRate.height s))
       (LowFrameRate.set_context k' (LowFrameRate.set_lastUpdate now s)),
     Host.triggerRepaint h).
Proof.
  intros Hk Hgate k'. unfold LowFrameRate.render.
  apply ltb_false_iff in Hgate. rewrite Hgate.
  unfold LowFrameRate.set_lastUpdate at 1. cbn [LowFrameRate.context].
  rewrite Hk. reflexivity.
Qed.

Lemma low_inner_opaque (s : LowFrameRate.t) :
  Canvas.alpha (inner (low_colors s)) = 1.
Proof.
  unfold low_colors, LowFrameRate.colors.
  destruct (LowFrameRate.isGrey s), (LowFrameRate.isCarrierVehicleOnRoute s);
    reflexivity.
Qed.

Lemma low_stroke_alpha (s : LowFrameRate.t) :
  Canvas.alpha (stroke (low_colors s))
  = if negb (LowFrameRate.isGrey s) && LowFrameRate.isCarrierVehicleOnRoute s
    then 1 else 7 # 10.
Proof.
  unfold low_colors, LowFrameRate.colors.
  destruct (LowFrameRate.isGrey s), (LowFrameRate.isCarrierVehicleOnRoute s);
    reflexivity.
Qed.

End LowFrameRateTick.

(** C9, as amended. In the reduced frame rate marker that has its context,
    a tick the gate admits clears the canvas, fills the outer circle,
    fills and strokes the inner circle, reads the canvas into [data],
    triggers one repaint and returns true, with the stop flag set or not.
    The flag only turns the outer fill into [rgba(219, 55, 19, 0)]; the
    inner fill has alpha 1, and the stroke has alpha 1 for the route
    colours and 0.7 for the grey and default ones. *)
Theorem low_frame_rate_admitted_tick :
  forall (rz : Canvas.Rasterizer) (h : Host.t) (s : LowFrameRate.t)
         (k : Canvas.Context2D) (now now2 : Q),
    LowFrameRate.context s = Some k ->
    (LowFrameRate.updateInterval <= now - LowFrameRate.lastUpdate s)%Q ->
    exists k' s',
      LowFrameRate.render rz h s now now2
      = (Js.Returned true, s', Host.triggerRepaint h)
      /\ Host.repaints (Host.triggerRepaint h) = S (Host.repaints h)
      /\ LowFrameRate.context s' = Some k'
      /\ LowFrameRate.data s'
         = Canvas.getImageData rz k' (LowFrameRate.width s) (LowFrameRate.height s)
      /\ Canvas.drawn k'
         = Canvas.drawn k
           ++ [Canvas.Clear 0 0 (inject_Z (Z.of_nat (LowFrameRate.width s)))
                            (inject_Z (Z.of_nat (LowFrameRate.height s)));
               Canvas.Fill [low_outer_circle s (LowFrameRate.phase now2)]
                 (if LowFrameRate.stopPulse s
                  then Canvas.rgba 219 55 19 0
                  else Canvas.replace_alpha (outer (low_colors s))
                         (Js.toFixed2
                            (Js.minus (Js.double (6 # 10))
                                      (Js.double (LowFrameRate.phase now2)))));
               Canvas.Fill [low_inner_circle s] (inner (low_colors s));
               Canvas.Stroke [low_inner_circle s] (stroke (low_colors s)) 2]
      /\ Canvas.alpha (inner (low_colors s)) = 1%Q
      /\ Canvas.alpha (stroke (low_colors s))
         = (if negb (LowFrameRate.isGrey s) && LowFrameRate.isCarrierVehicleOnRoute s
            then 1 else 7 # 10)%Q.
Proof.
  intros rz h s k now now2 Hk Hgate.
  eexists. eexists. split; [apply (low_render_admitted rz h s k now now2 Hk Hgate)|].
  split; [reflexivity|]. split; [reflexivity|]. split; [reflexivity|].
  split; [apply low_draw_drawn|].
  split; [apply low_inner_opaque|apply low_stroke_alpha].
Qed.

Lemma low_frame_rate_admitted_tick_witness :
  fst (fst (LowFrameRate.render SampleRaster.discs Host.plain
              Samples.stopped_dot 5000 5001))
  = Js.Returned true.
Proof.
  destruct (low_frame_rate_admitted_tick SampleRaster.discs Host.plain
              Samples.stopped_dot
              (Canvas.createContext 75 75) 5000 5001 eq_refl)
    as (k' & s' & Heq & _).
  - discriminate.
  - rewrite Heq. reflexivity.
Defined.

(** C9 as stated fails on the stroke: with the stop flag set and the
    default colours, the last drawing call of an admitted tick strokes
    the inner circle with [rgba(237, 240, 240, 0.7)], whose alpha is below
    1. *)
Lemma stopped_default_stroke_translucent :
  option_map (fun k => last (Canvas.drawn k) (Canvas.Clear 0 0 0 0))
    (LowFrameRate.context
       (snd (fst (LowFrameRate.render SampleRaster.discs Host.plain
                    Samples.stopped_dot 5000 5001))))
  = Some (Canvas.Stroke [Canvas.circle (75 # 2) (75 # 2) (225 # 20)]
                        (Canvas.rgba 237 240 240 (7 # 10)) 2)
  /\ Qle_bool 1 (7 # 10) = false.
Proof.
  split; vm_compute; reflexivity.
Qed.

(** ** The stop flag *)

Lemma opacity_render_stopped (rz : Canvas.Rasterizer) (h : Host.t)
      (s : OpacityDot.t) (now now2 : Q) :
  OpacityDot.stopPulse s = true ->
  OpacityDot.render rz h s now now2
  = (Js.Returned false,
     if Js.ltb (now - OpacityDot.lastUpdate s) OpacityDot.updateInterval
     then s else OpacityDot.set_lastUpdate now s,
     h).
Proof.
  intro Hstop. unfold OpacityDot.render.
  destruct (Js.ltb _ _); [reflexivity|].
  unfold OpacityDot.set_lastUpdate at 1. cbn [OpacityDot.stopPulse].
  now rewrite Hstop.
Qed.

(** C2, as amended. With the stop flag set: every [render] of the opacity
    marker returns false, draws nothing, triggers no repaint and keeps
    [data], the context and the flag, whatever the clock reads (it only
    records the time of a tick the gate admits); a [render] of the reduced
    frame rate marker that the gate admits fills the outer circle with the
    fully transparent [rgba(219, 55, 19, 0)], still fills the inner circle
    with an opaque colour, keeps the context and the flag, and returns
    true; the static and CSS markers never draw. *)
Theorem stop_flag_suppresses_pulse :
  forall (rz : Canvas.Rasterizer) (h : Host.t) (now now2 : Q),
    (forall s,
        OpacityDot.stopPulse s = true ->
        exists s',
          OpacityDot.render rz h s now now2 = (Js.Returned false, s', h)
          /\ OpacityDot.data s' = OpacityDot.data s
          /\ OpacityDot.context s' = OpacityDot.context s
          /\ OpacityDot.stopPulse s' = true
          /\ (s' = s \/ s' = OpacityDot.set_lastUpdate now s))
    /\ (forall s k,
          LowFrameRate.stopPulse s = true ->
          LowFrameRate.context s = Some k ->
          (LowFrameRate.updateInterval <= now - LowFrameRate.lastUpdate s)%Q ->
          exists k' s',
            LowFrameRate.render rz h s now now2
            = (Js.Returned true, s', Host.triggerRepaint h)
            /\ LowFrameRate.context s' = Some k'
            /\ LowFrameRate.stopPulse s' = true
            /\ Canvas.drawn k'
               = Canvas.drawn k
                 ++ [Canvas.Clear 0 0 (inject_Z (Z.of_nat (LowFrameRate.width s)))
                                  (inject_Z (Z.of_nat (LowFrameRate.height s)));
                     Canvas.Fill [low_outer_circle s (LowFrameRate.phase now2)]
                                 (Canvas.rgba 219 55 19 0);
                     Canvas.Fill [low_inner_circle s] (inner (low_colors s));
                     Canvas.Stroke [low_inner_circle s] (stroke (low_colors s)) 2]
            /\ Canvas.alpha (inner (low_colors s)) = 1%Q)
    /\ (forall s, StaticDot.render s = (false, s))
    /\ (forall s, CssDot.render s = (false, s)).
Proof.
  intros rz h now now2. split; [|split; [|split]].
  - intros s Hstop. eexists. split; [apply opacity_render_stopped, Hstop|].
    destruct (Js.ltb _ _).
    + repeat split; try assumption. now left.
    + repeat split; try assumption. now right.
  - intros s k Hstop Hk Hgate.
    eexists. eexists.
    split; [apply (low_render_admitted rz h s k now now2 Hk Hgate)|].
    split; [reflexivity|]. split; [exact Hstop|].
    split; [|apply low_inner_opaque].
    rewrite low_draw_drawn. unfold LowFrameRate.outer_fill. now rewrite Hstop.
  - reflexivity.
  - reflexivity.
Qed.

Lemma stop_flag_suppresses_pulse_witness :
  OpacityDot.stopPulse Samples.stopped_opacity_dot = true
  /\ fst (fst (OpacityDot.render SampleRaster.discs Host.plain
                 Samples.stopped_opacity_dot 7000 7001))
     = Js.Returned false
  /\ snd (OpacityDot.render SampleRaster.discs Host.plain
            Samples.stopped_opacity_dot 7000 7001)
     = Host.plain.
Proof.
  split; [reflexivity|].
  destruct (proj1 (stop_flag_suppresses_pulse SampleRaster.discs Host.plain 7000 7001)
              Samples.stopped_opacity_dot eq_refl)
    as (s' & Heq & _).
  rewrite Heq. split; reflexivity.
Defined.

(** C2 as stated fails in the reduced frame rate marker: with the stop
    flag set, a tick the gate admits returns true, triggers a repaint, and
    fills the inner circle with the opaque red; under the sample rasterizer
    the centre pixel of [data] comes out as opaque red. *)
Lemma stopped_low_frame_rate_still_paints :
  fst (fst (LowFrameRate.render SampleRaster.discs Host.plain
              Samples.stopped_dot 5000 5001))
  = Js.Returned true
  /\ Host.repaints (snd (LowFrameRate.render SampleRaster.discs Host.plain
                           Samples.stopped_dot 5000 5001))
     = 1%nat
  /\ option_map Canvas.drawn
       (LowFrameRate.context
          (snd (fst (LowFrameRate.render SampleRaster.discs Host.plain
                       Samples.stopped_dot 5000 5001))))
     = Some [Canvas.Clear 0 0 75 75;
             Canvas.Fill [Canvas.circle (75 # 2) (75 # 2) (19510500 # 800000)]
                         (Canvas.rgba 219 55 19 0);
             Canvas.Fill [Canvas.circle (75 # 2) (75 # 2) (225 # 20)]
                         (Canvas.rgba 219 55 19 1);
             Canvas.Stroke [Canvas.circle (75 # 2) (75 # 2) (225 # 20)]
                           (Canvas.rgba 237 240 240 (7 # 10)) 2]
  /\ firstn 4 (skipn (4 * (37 * 75 + 37))
                 (LowFrameRate.data
                    (snd (fst (LowFrameRate.render SampleRaster.discs Host.plain
                                 Samples.stopped_dot 5000 5001)))))
     = [219; 55; 19; 255]%Z.
Proof.
  repeat split; vm_compute; reflexivity.
Qed.

Lemma frame_cycling_witness :
  PreRendered.currentFrame
    (fst (PreRendered.renders [100; 200; 300]%Q (Samples.ring_dot, Host.plain)))
  = 0%nat.
Proof.
  assert (Hne : Samples.three_frames <> []) by discriminate.
  assert (Hlt : (PreRendered.currentFrame Samples.ring_dot
                 < length Samples.three_frames)%nat) by (cbn; lia).
  destruct (frame_cycling Samples.three_frames Host.plain Samples.ring_dot
              Hne eq_refl Hlt) as [_ Hrun].
  exact (proj1 (Hrun [100; 200; 300]%Q eq_refl eq_refl) eq_refl).
Defined.

(** ** Storing into a clamped byte array *)

Section Clamp.

Local Open Scope R_scope.

Lemma Int_part_bounds (x : R) : IZR (Int_part x) <= x < IZR (Int_part x) + 1.
Proof.
  destruct (base_Int_part x) as [Hle Hgt]. lra.
Qed.

Lemma Int_part_mono (x y : R) : x <= y -> (Int_part x <= Int_part y)%Z.
Proof.
  intro H. pose proof (Int_part_bounds x). pose proof (Int_part_bounds y).
  apply Z.lt_succ_r, lt_IZR. rewrite succ_IZR. lra.
Qed.

Lemma ToUint8Clamp_range (x : R) : (0 <= Js.ToUint8Clamp x <= 255)%Z.
Proof.
  unfold Js.ToUint8Clamp.
  destruct (Rle_dec x 0); [lia|]. destruct (Rle_dec 255 x); [lia|].
  pose proof (Int_part_bounds x) as [Hlo Hhi].
  assert (0 <= Int_part x)%Z.
  { apply Z.lt_succ_r, lt_IZR. rewrite succ_IZR. lra. }
  assert (Int_part x < 255)%Z by (apply lt_IZR; lra).
  destruct (Rlt_dec _ _); [lia|]. destruct (Rlt_dec _ _); [lia|].
  destruct (Z.even _); lia.
Qed.

(** Inside the range the stored byte is the floor or the floor plus one. *)
Lemma ToUint8Clamp_inside (x : R) :
  0 < x -> x < 255 ->
  (Js.ToUint8Clamp x = Int_part x /\ x - IZR (Int_part x) <= 1 / 2)
  \/ (Js.ToUint8Clamp x = (Int_part x + 1)%Z /\ 1 / 2 <= x - IZR (Int_part x)).
Proof.
  intros H0 H255. unfold Js.ToUint8Clamp.
  destruct (Rle_dec x 0); [lra|]. destruct (Rle_dec 255 x); [lra|].
  destruct (Rlt_dec _ _); [left; split; [reflexivity|lra]|].
  destruct (Rlt_dec _ _); [right; split; [reflexivity|lra]|].
  destruct (Z.even _); [left|right]; split; try reflexivity; lra.
Qed.

(** The three cases of the rounding, by the fractional part. *)
Lemma ToUint8Clamp_cases (x : R) :
  0 < x -> x < 255 ->
  (Js.ToUint8Clamp x = Int_part x /\ x - IZR (Int_part x) < 1 / 2)
  \/ (Js.ToUint8Clamp x = (Int_part x + 1)%Z /\ 1 / 2 < x - IZR (Int_part x))
  \/ (Js.ToUint8Clamp x
      = (if Z.even (Int_part x) then Int_part x else Int_part x + 1)%Z
      /\ x - IZR (Int_part x) = 1 / 2).
Proof.
  intros H0 H255. unfold Js.ToUint8Clamp.
  destruct (Rle_dec x 0); [lra|]. destruct (Rle_dec 255 x); [lra|].
  destruct (Rlt_dec _ _); [left; split; [reflexivity|lra]|].
  destruct (Rlt_dec _ _); [right; left; split; [reflexivity|lra]|].
  right; right. split; [reflexivity|lra].
Qed.

(** A larger number is stored as a larger byte, or the same. *)
Lemma ToUint8Clamp_mono (x y : R) :
  x <= y -> (Js.ToUint8Clamp x <= Js.ToUint8Clamp y)%Z.
Proof.
  intro Hxy.
  pose proof (ToUint8Clamp_range x) as Rx. pose proof (ToUint8Clamp_range y) as Ry.
  destruct (Rle_dec x 0) as [Hx0|Hx0].
  { unfold Js.ToUint8Clamp at 1. destruct (Rle_dec x 0); [lia|contradiction]. }
  destruct (Rle_dec 255 y) as [Hy|Hy].
  { unfold Js.ToUint8Clamp at 2.
    destruct (Rle_dec y 0); [lra|]. destruct (Rle_dec 255 y); [lia|contradiction]. }
  assert (Hx : 0 < x < 255) by lra. assert (Hy' : 0 < y < 255) by lra.
  pose proof (Int_part_mono x y Hxy) as Hf.
  pose proof (Int_part_bounds x). pose proof (Int_part_bounds y).
  destruct (Z.eq_dec (Int_part x) (Int_part y)) as [E|E].
  - destruct (ToUint8Clamp_cases x) as [[-> Fx]|[[-> Fx]|[-> Fx]]]; try lra;
      destruct (ToUint8Clamp_cases y) as [[-> Fy]|[[-> Fy]|[-> Fy]]]; try lra;
      rewrite E in *; try lia; try lra;
      destruct (Z.even (Int_part y)); lia.
  - destruct (ToUint8Clamp_inside x) as [[-> _]|[-> _]]; try lra;
      destruct (ToUint8Clamp_inside y) as [[-> _]|[-> _]]; try lra; lia.
Qed.


End Clamp.

(** ** The phase and the opacity factor *)

Section Phase.

Local Open Scope Q_scope.

Lemma trunc_nonneg (q : Q) : 0 <= q -> Js.trunc q = Qfloor q.
Proof.
  intro H. destruct q as [n d]. unfold Js.trunc, Qfloor. cbn [Qnum Qden].
  apply Z.quot_div_nonneg; [|reflexivity].
  unfold Qle in H. cbn in H. lia.
Qed.

(** On a clock that is not negative, the phase is the fractional part of
    the time in periods. *)
Lemma phase_fraction (now : Q) :
  0 <= now ->
  OpacityDot.phase now
  == now / OpacityDot.duration - inject_Z (Qfloor (now / OpacityDot.duration)).
Proof.
  intro H. unfold OpacityDot.phase, Js.rem.
  rewrite trunc_nonneg.
  - unfold OpacityDot.duration. field.
  - unfold OpacityDot.duration.
    apply Qle_shift_div_l; [reflexivity|]. now rewrite Qmult_0_l.
Qed.

Lemma phase_range (now : Q) :
  0 <= now -> 0 <= OpacityDot.phase now /\ OpacityDot.phase now < 1.
Proof.
  intro H. rewrite (phase_fraction now H).
  pose proof (Qfloor_le (now / OpacityDot.duration)).
  pose proof (Qlt_floor (now / OpacityDot.duration)) as Hlt.
  rewrite inject_Z_plus in Hlt. change (inject_Z 1) with 1 in Hlt.
  set (u := now / OpacityDot.duration) in *.
  set (z := inject_Z (Qfloor u)) in *.
  clearbody u z. split; Lqa.lra.
Qed.

(** Within one period the phase grows with the clock. *)
Lemma phase_same_cycle (now next : Q) :
  0 <= now -> now <= next ->
  Qfloor (now / OpacityDot.duration) = Qfloor (next / OpacityDot.duration) ->
  OpacityDot.phase now <= OpacityDot.phase next.
Proof.
  intros H0 Hle Hc.
  rewrite (phase_fraction now H0), (phase_fraction next) by (eapply Qle_trans; eassumption).
  rewrite Hc.
  assert (Hd : now / OpacityDot.duration <= next / OpacityDot.duration).
  { unfold Qdiv. apply Qmult_le_compat_r; [exact Hle|]. discriminate. }
  set (u := now / OpacityDot.duration) in *.
  set (v := next / OpacityDot.duration) in *.
  set (z := inject_Z (Qfloor v)) in *.
  clearbody u v z. Lqa.lra.
Qed.

End Phase.

Section Opacity.

Local Open Scope R_scope.

Lemma Q2R_half : Q2R (1 # 2) = 1 / 2.
Proof. unfold Q2R. cbn. lra. Qed.

Lemma Q2R_one : Q2R 1 = 1.
Proof. unfold Q2R. cbn. lra. Qed.

Lemma Q2R_zero : Q2R 0 = 0.
Proof. unfold Q2R. cbn. lra. Qed.

(** On the second half of the period the factor falls as the phase
    grows. *)
Lemma opacity_decreasing (t u : Q) :
  (1 # 2 <= t)%Q -> (t <= u)%Q -> (u <= 1)%Q ->
  OpacityDot.opacity u <= OpacityDot.opacity t.
Proof.
  intros Ht Htu Hu. unfold OpacityDot.opacity.
  apply Qle_Rle in Ht, Htu, Hu. rewrite Q2R_half in Ht. rewrite Q2R_one in Hu.
  pose proof PI_RGT_0 as Hpi.
  assert (sin (Q2R u * PI) <= sin (Q2R t * PI)); [|lra].
  apply sin_decr_1; nra.
Qed.

(** On a phase between 0 and 1 the factor lies between 0.3 and 1. *)
Lemma opacity_range (t : Q) :
  (0 <= t)%Q -> (t <= 1)%Q -> 0.3 <= OpacityDot.opacity t <= 1.
Proof.
  intros H0 H1. unfold OpacityDot.opacity.
  apply Qle_Rle in H0, H1. rewrite Q2R_zero in H0. rewrite Q2R_one in H1.
  pose proof PI_RGT_0 as Hpi.
  pose proof (SIN_bound (Q2R t * PI)) as [_ Hs].
  assert (0 <= sin (Q2R t * PI)) by (apply sin_ge_0; nra).
  lra.
Qed.

End Opacity.

(** ** The alpha scaling of the opacity marker *)

(** The loop of lines 262-264 by offsets: the bytes at offsets 3, 7, 11,
    ... below the length are replaced, the others are kept. *)
Lemma scale_alpha_nth (o : R) (d : list Z) :
  forall i : nat,
    nth i (OpacityDot.scale_alpha o d) 0%Z
    = if (i mod 4 =? 3)%nat && (i <? length d)%nat
      then Js.ToUint8Clamp (IZR (nth i d 0%Z) * o)
      else nth i d 0%Z.
Proof.
  induction d as [|a|a b|a b c|a b c e l IH] using list_ind4; intro i.
  - cbn [OpacityDot.scale_alpha length].
    replace (i <? 0)%nat with false by (symmetry; apply Nat.ltb_ge; lia).
    now rewrite andb_false_r.
  - destruct i as [|i]; [reflexivity|].
    cbn [OpacityDot.scale_alpha length].
    replace (S i <? 1)%nat with false by (symmetry; apply Nat.ltb_ge; lia).
    now rewrite andb_false_r.
  - destruct i as [|[|i]]; try reflexivity.
    cbn [OpacityDot.scale_alpha length].
    replace (S (S i) <? 2)%nat with false by (symmetry; apply Nat.ltb_ge; lia).
    now rewrite andb_false_r.
  - destruct i as [|[|[|i]]]; try reflexivity.
    cbn [OpacityDot.scale_alpha length].
    replace (S (S (S i)) <? 3)%nat with false by (symmetry; apply Nat.ltb_ge; lia).
    now rewrite andb_false_r.
  - destruct i as [|[|[|[|j]]]]; try reflexivity.
    cbn [OpacityDot.scale_alpha nth length]. rewrite IH.
    replace (S (S (S (S j))) mod 4)%nat with (j mod 4)%nat
      by (replace (S (S (S (S j)))) with (j + 1 * 4)%nat by lia;
          now rewrite Nat.Div0.mod_add).
    reflexivity.
Qed.

Lemma clamp_byte_range (v : Z) : (0 <= Js.clamp_byte v <= 255)%Z.
Proof. unfold Js.clamp_byte. lia. Qed.

(** Image data holds bytes. *)
Lemma getImageData_range (rz : Canvas.Rasterizer) (k : Canvas.Context2D) (sw sh i : nat) :
  (0 <= nth i (Canvas.getImageData rz k sw sh) 0 <= 255)%Z.
Proof.
  destruct (nth_in_or_default i (Canvas.getImageData rz k sw sh) 0%Z) as [Hin| ->];
    [|lia].
  revert Hin. generalize (nth i (Canvas.getImageData rz k sw sh) 0%Z). intros v Hin.
  unfold Canvas.getImageData in Hin.
  apply in_flat_map in Hin. destruct Hin as (y & _ & Hin).
  apply in_flat_map in Hin. destruct Hin as (x & _ & Hin).
  unfold Canvas.image_pixel in Hin. apply in_map_iff in Hin.
  destruct Hin as (c & <- & _).
  destruct (_ && _); [apply clamp_byte_range|lia].
Qed.

Section OpacityTick.

Variable rz : Canvas.Rasterizer.

(** What a [render] that returned true did. *)
Lemma opacity_render_true (h h' : Host.t) (s s' : OpacityDot.t) (now now2 : Q) :
  OpacityDot.render rz h s now now2 = (Js.Returned true, s', h') ->
  exists k,
    OpacityDot.context s = Some k
    /\ OpacityDot.stopPulse s = false
    /\ (OpacityDot.updateInterval <= now - OpacityDot.lastUpdate s)%Q
    /\ s' = OpacityDot.set_data
              (OpacityDot.scale_alpha (OpacityDot.opacity (OpacityDot.phase now2))
                 (Canvas.getImageData rz k (OpacityDot.width s) (OpacityDot.height s)))
              (OpacityDot.set_lastUpdate now s)
    /\ h' = Host.triggerRepaint h.
Proof.
  unfold OpacityDot.render.
  destruct (Js.ltb _ _) eqn:Hgate; [discriminate|].
  unfold OpacityDot.set_lastUpdate at 1. cbn [OpacityDot.stopPulse].
  destruct (OpacityDot.stopPulse s) eqn:Hstop; [discriminate|].
  unfold OpacityDot.set_lastUpdate at 1. cbn [OpacityDot.context].
  destruct (OpacityDot.context s) as [k|] eqn:Hk; [|discriminate].
  intro H. inversion H. exists k.
  apply ltb_false_iff in Hgate. repeat split; assumption.
Qed.

(** A tick that is admitted, with the flag clear and a context. *)
Lemma opacity_render_admitted (h : Host.t) (s : OpacityDot.t)
      (k : Canvas.Context2D) (now now2 : Q) :
  OpacityDot.context s = Some k ->
  OpacityDot.stopPulse s = false ->
  (OpacityDot.updateInterval <= now - OpacityDot.lastUpdate s)%Q ->
  OpacityDot.render rz h s now now2
  = (Js.Returned true,
     OpacityDot.set_data
       (OpacityDot.scale_alpha (OpacityDot.opacity (OpacityDot.phase now2))
          (Canvas.getImageData rz k (OpacityDot.width s) (OpacityDot.height s)))
       (OpacityDot.set_lastUpdate now s),
     Host.triggerRepaint h).
Proof.
  intros Hk Hstop Hgate. unfold OpacityDot.render.
  apply ltb_false_iff in Hgate. rewrite Hgate.
  unfold OpacityDot.set_lastUpdate at 1. cbn [OpacityDot.stopPulse]. rewrite Hstop.
  unfold OpacityDot.set_lastUpdate at 1. cbn [OpacityDot.context]. rewrite Hk.
  reflexivity.
Qed.

End OpacityTick.

(** C5. Two consecutive admitted ticks of the opacity marker whose phases
    lie in the same second half of a 2-second period (the clock of the
    first is not negative, the clock of the second is not earlier, both
    fall in the same period, and the first phase is at least 0.5; the
    second phase is then in [0.5, 1) too): every alpha byte of [data]
    after the second tick is at most the one after the first. *)
Theorem opacity_fade_out_non_increasing :
  forall (rz : Canvas.Rasterizer) (h h1 h2 : Host.t) (s s1 s2 : OpacityDot.t)
         (now now2 next next2 : Q),
    OpacityDot.render rz h s now now2 = (Js.Returned true, s1, h1) ->
    OpacityDot.render rz h1 s1 next next2 = (Js.Returned true, s2, h2) ->
    (0 <= now2)%Q -> (now2 <= next2)%Q ->
    Qfloor (now2 / OpacityDot.duration) = Qfloor (next2 / OpacityDot.duration) ->
    (1 # 2 <= OpacityDot.phase now2)%Q ->
    ((1 # 2 <= OpacityDot.phase next2)%Q /\ (OpacityDot.phase next2 < 1)%Q)
    /\ forall pixel : nat,
         (nth (4 * pixel + 3) (OpacityDot.data s2) 0
          <= nth (4 * pixel + 3) (OpacityDot.data s1) 0)%Z.
Proof.
  intros rz h h1 h2 s s1 s2 now now2 next next2 H1 H2 H0 Hle Hcycle Hhalf.
  pose proof (phase_same_cycle now2 next2 H0 Hle Hcycle) as Hphase.
  assert (H0' : (0 <= next2)%Q) by (eapply Qle_trans; eassumption).
  destruct (phase_range next2 H0') as [_ Hlt1].
  split; [split; [eapply Qle_trans; eassumption|exact Hlt1]|].
  destruct (opacity_render_true rz h h1 s s1 now now2 H1)
    as (k & Hk & _ & _ & -> & _).
  destruct (opacity_render_true rz _ h2 _ s2 next next2 H2)
    as (k' & Hk' & _ & _ & -> & _).
  cbn [OpacityDot.set_data OpacityDot.set_lastUpdate OpacityDot.context
       OpacityDot.width OpacityDot.height OpacityDot.data] in Hk' |- *.
  rewrite Hk in Hk'. injection Hk' as <-.
  intro pixel. rewrite !scale_alpha_nth.
  destruct (_ && _); [|lia].
  apply ToUint8Clamp_mono.
  apply Rmult_le_compat_l.
  - apply IZR_le, getImageData_range.
  - apply opacity_decreasing; [exact Hhalf|exact Hphase|].
    apply Qlt_le_weak, Hlt1.
Qed.

Lemma sample_first_tick :
  OpacityDot.render SampleRaster.discs Host.plain Samples.painted_opacity_dot 1000 1100
  = (Js.Returned true, Samples.first_tick, Host.triggerRepaint Host.plain).
Proof.
  unfold Samples.first_tick.
  rewrite (opacity_render_admitted SampleRaster.discs Host.plain
             Samples.painted_opacity_dot _ 1000 1100 eq_refl eq_refl);
    [reflexivity|discriminate].
Defined.

Lemma sample_second_tick :
  OpacityDot.render SampleRaster.discs (Host.triggerRepaint Host.plain)
    Samples.first_tick 1200 1300
  = (Js.Returned true, Samples.second_tick,
     Host.triggerRepaint (Host.triggerRepaint Host.plain)).
Proof.
  unfold Samples.second_tick.
  assert (Hk : OpacityDot.context Samples.first_tick
               = OpacityDot.context Samples.painted_opacity_dot).
  { unfold Samples.first_tick. rewrite sample_first_tick. reflexivity. }
  assert (Hs : OpacityDot.stopPulse Samples.first_tick = false).
  { unfold Samples.first_tick. rewrite sample_first_tick. reflexivity. }
  assert (Ht : OpacityDot.lastUpdate Samples.first_tick = 1000%Q).
  { unfold Samples.first_tick. rewrite sample_first_tick. reflexivity. }
  rewrite (opacity_render_admitted SampleRaster.discs _ Samples.first_tick
             _ 1200 1300 Hk Hs); [reflexivity|].
  rewrite Ht. discriminate.
Defined.

Lemma opacity_fade_out_non_increasing_witness :
  (nth (4 * 2812 + 3) (OpacityDot.data Samples.second_tick) 0
   <= nth (4 * 2812 + 3) (OpacityDot.data Samples.first_tick) 0)%Z.
Proof.
  refine (proj2 (opacity_fade_out_non_increasing SampleRaster.discs
                   _ _ _ _ _ _ 1000 1100 1200 1300
                   sample_first_tick sample_second_tick _ _ eq_refl _) 2812%nat);
    discriminate.
Defined.

(** * Further properties of the markers *)

(** ** Pre-rendering on a page that has a global context *)

Section PreRenderGlobal.

Variable rz : Canvas.Rasterizer.
Variable line156 : PreRendered.Line156.

Local Open Scope Q_scope.

(** The four pixel-changing calls of one frame, in order. The outer
    circle is filled with what line 156 assigns, or with the fill style
    the context had when it assigns nothing. *)
Lemma pre_draw_frame_drawn (s : PreRendered.t) (i : nat) (k : Canvas.Context2D) :
  Canvas.drawn (PreRendered.draw_frame line156 s i k)
  = Canvas.drawn k
    ++ [Canvas.Clear 0 0 (inject_Z (Z.of_nat (PreRendered.width s)))
                     (inject_Z (Z.of_nat (PreRendered.height s)));
        Canvas.Fill [pre_outer_circle s i]
          (match line156 (PreRendered.closure_colors s) (pre_phase i) with
           | Some style => style
           | None => Canvas.fillStyle k
           end);
        Canvas.Fill [pre_inner_circle s] (inner (PreRendered.closure_colors s));
        Canvas.Stroke [pre_inner_circle s] (stroke (PreRendered.closure_colors s)) 2].
Proof.
  unfold PreRendered.draw_frame. fold (pre_phase i).
  destruct (line156 (PreRendered.closure_colors s) (pre_phase i));
    cbn -[Qmult Qdiv Qplus Qminus inject_Z pre_phase];
    now rewrite <- !app_assoc.
Qed.

(** One round of the loop. *)
Lemma prerender_cons (i : nat) (rest : list nat) (s : PreRendered.t) (h : Host.t) :
  PreRendered.prerender rz line156 (i :: rest) s h
  = match Host.global_context h with
    | None => (Js.Threw Js.ReferenceError, s, h)
    | Some k =>
        let k := PreRendered.draw_frame line156 s i k in
        let h := Host.set_global_context k h in
        let frame := Canvas.getImageData rz k (PreRendered.width s)
                                         (PreRendered.height s) in
        match PreRendered.preRenderedFrames s with
        | None => (Js.Threw Js.TypeError, s, h)
        | Some f =>
            PreRendered.prerender rz line156 rest
              (PreRendered.set_preRenderedFrames (f ++ [frame]) s) h
        end
    end.
Proof. reflexivity. Qed.

(** With a global context the loop runs to its end: one frame per round,
    four drawing calls per round on the global canvas, whose last image is
    the last frame; the repaint count is not touched. *)
Lemma prerender_global (todo : list nat) :
  forall (s : PreRendered.t) (h : Host.t) (k : Canvas.Context2D) (f : list (list Z)),
    Host.global_context h = Some k ->
    PreRendered.preRenderedFrames s = Some f ->
    exists new k',
      PreRendered.prerender rz line156 todo s h
      = (Js.Returned tt, PreRendered.set_preRenderedFrames (f ++ new) s,
         Host.mk (Host.repaints h) (Some k'))
      /\ length new = length todo
      /\ Forall (fun fr => length fr
                           = (PreRendered.width s * PreRendered.height s * 4)%nat) new
      /\ length (Canvas.drawn k') = (length (Canvas.drawn k) + 4 * length todo)%nat
      /\ (todo <> [] ->
          last new [] = Canvas.getImageData rz k' (PreRendered.width s)
                                            (PreRendered.height s)).
Proof.
  induction todo as [|i rest IH]; intros s h k f Hk Hf.
  - exists [], k. cbn [PreRendered.prerender].
    rewrite app_nil_r, (set_frames_same s f Hf).
    destruct h as [r g]. cbn in Hk. subst g.
    repeat split; try constructor; [cbn; lia|congruence].
  - rewrite prerender_cons, Hk, Hf. cbv zeta.
    set (k1 := PreRendered.draw_frame line156 s i k).
    set (frame := Canvas.getImageData rz k1 (PreRendered.width s) (PreRendered.height s)).
    destruct (IH (PreRendered.set_preRenderedFrames (f ++ [frame]) s)
                 (Host.set_global_context k1 h) k1 (f ++ [frame]) eq_refl eq_refl)
      as (new & k' & Heq & Hlen & Hall & Hdrawn & Hlast).
    exists (frame :: new), k'. rewrite Heq.
    split; [now rewrite <- app_assoc|].
    split; [cbn [length]; now rewrite Hlen|].
    split; [constructor; [apply getImageData_length|exact Hall]|].
    split.
    + rewrite Hdrawn. unfold k1. rewrite pre_draw_frame_drawn, length_app.
      cbn [length]. lia.
    + intros _. destruct rest as [|j rest'].
      * destruct new; [|discriminate Hlen].
        cbn [PreRendered.prerender] in Heq. inversion Heq as [[Hs Hh]].
        reflexivity.
      * destruct new as [|fr new']; [discriminate Hlen|].
        change (last (frame :: fr :: new') []) with (last (fr :: new') []).
        apply Hlast. discriminate.
Qed.

End PreRenderGlobal.

(** ** The rate of repaints *)

Section RateLimit.

Variable rz : Canvas.Rasterizer.
Variable line156 : PreRendered.Line156.
Variable T : Q.

Local Open Scope Q_scope.

Lemma repaint_count_succ (h : Host.t) :
  repaint_count (Host.triggerRepaint h) == repaint_count h + 1.
Proof.
  unfold repaint_count, Host.triggerRepaint. cbn [Host.repaints].
  rewrite Nat2Z.inj_succ. unfold Z.succ. rewrite inject_Z_plus. reflexivity.
Qed.

(** An admitted tick leaves the repaint count or adds one to it. *)
Lemma low_render_host (h : Host.t) (s : LowFrameRate.t) (now now2 : Q) :
  snd (LowFrameRate.render rz h s now now2) = h
  \/ snd (LowFrameRate.render rz h s now now2) = Host.triggerRepaint h.
Proof.
  unfold LowFrameRate.render. destruct (Js.ltb _ _); [now left|].
  destruct s as [sz w hh d c g st [k|] lu]; [now right|now left].
Qed.

Lemma pre_render_host (h : Host.t) (s : PreRendered.t) (now : Q) :
  snd (PreRendered.render h s now) = h
  \/ snd (PreRendered.render h s now) = Host.triggerRepaint h.
Proof.
  unfold PreRendered.render. destruct (Js.ltb _ _); [now left|].
  destruct s as [sz w hh d c g st [f|] ctx cf lu cols]; [|now left].
  cbn [PreRendered.set_lastUpdate PreRendered.preRenderedFrames].
  destruct (0 <? length f)%nat; [now right|now left].
Qed.

Lemma opacity_render_host (h : Host.t) (s : OpacityDot.t) (now now2 : Q) :
  snd (OpacityDot.render rz h s now now2) = h
  \/ snd (OpacityDot.render rz h s now now2) = Host.triggerRepaint h.
Proof.
  unfold OpacityDot.render. destruct (Js.ltb _ _); [now left|].
  destruct s as [sz w hh d c g [|] [k|] lu]; try (now left). now right.
Qed.

Lemma low_call_paced (r0 : Q) (st : LowFrameRate.t * Host.t) (c : LowFrameRate.Call) :
  low_clock_below T c = true ->
  low_paced T r0 st -> low_paced T r0 (LowFrameRate.call rz st c).
Proof.
  destruct st as [s h]. unfold low_paced. cbn [fst snd].
  intros Hc [Hr Ht]. destruct c as [|now now2|b]; try (split; assumption).
  cbn [low_clock_below] in Hc. apply Qle_bool_iff in Hc.
  cbn [LowFrameRate.call fst snd].
  destruct (Js.ltb (now - LowFrameRate.lastUpdate s) LowFrameRate.updateInterval)
    eqn:Hgate.
  - apply ltb_true_iff in Hgate.
    rewrite (low_gate_closed rz h s now now2 Hgate). split; assumption.
  - apply ltb_false_iff in Hgate.
    pose proof (low_gate_open_time rz h s now now2 Hgate) as Hlast.
    pose proof (low_render_host h s now now2) as Hhost.
    destruct (LowFrameRate.render rz h s now now2) as [[o s1] h1].
    cbn [fst snd] in *. subst now. unfold LowFrameRate.updateInterval in *.
    split; [|exact Hc].
    destruct Hhost as [->| ->]; [|rewrite repaint_count_succ]; Lqa.lra.
Qed.

Lemma low_run_paced (r0 : Q) (calls : list LowFrameRate.Call) :
  forall st,
    forallb (low_clock_below T) calls = true ->
    low_paced T r0 st -> low_paced T r0 (LowFrameRate.run rz calls st).
Proof.
  induction calls as [|c calls IH]; intros st Hall H; [exact H|].
  cbn [forallb] in Hall. apply andb_true_iff in Hall. destruct Hall as [Hc Hall].
  cbn [LowFrameRate.run fold_left]. apply IH; [exact Hall|].
  now apply low_call_paced.
Qed.

Lemma pre_call_paced (r0 : Q) (st : PreRendered.t * Host.t) (c : PreRendered.Call) :
  pre_clock_below T c = true ->
  pre_paced T r0 st -> pre_paced T r0 (PreRendered.call rz line156 st c).
Proof.
  destruct st as [s h]. unfold pre_paced. cbn [fst snd].
  intros Hc [Hr Ht]. destruct c as [|now|b|k]; try (split; assumption).
  - cbn [PreRendered.call fst snd].
    destruct (Host.global_context h) as [k|] eqn:Hk.
    + unfold PreRendered.onAdd.
      match goal with
      | |- context [PreRendered.prerender rz line156 ?todo ?s0 h] =>
          destruct (prerender_global rz line156 todo s0 h k [] Hk eq_refl)
            as (new & k' & -> & _)
      end.
      split; assumption.
    + rewrite (pre_onAdd_no_global rz line156 h s Hk). split; assumption.
  - cbn [pre_clock_below] in Hc. apply Qle_bool_iff in Hc.
    cbn [PreRendered.call fst snd].
    destruct (Js.ltb (now - PreRendered.lastUpdate s) PreRendered.frameInterval)
      eqn:Hgate.
    + apply ltb_true_iff in Hgate.
      rewrite (pre_gate_closed h s now Hgate). split; assumption.
    + apply ltb_false_iff in Hgate.
      pose proof (pre_gate_open_time h s now Hgate) as Hlast.
      pose proof (pre_render_host h s now) as Hhost.
      destruct (PreRendered.render h s now) as [[o s1] h1].
      cbn [fst snd] in *. subst now. unfold PreRendered.frameInterval in *.
      split; [|exact Hc].
      destruct Hhost as [->| ->]; [|rewrite repaint_count_succ]; Lqa.lra.
Qed.

Lemma pre_run_paced (r0 : Q) (calls : list PreRendered.Call) :
  forall st,
    forallb (pre_clock_below T) calls = true ->
    pre_paced T r0 st -> pre_paced T r0 (PreRendered.run rz line156 calls st).
Proof.
  induction calls as [|c calls IH]; intros st Hall H; [exact H|].
  cbn [forallb] in Hall. apply andb_true_iff in Hall. destruct Hall as [Hc Hall].
  cbn [PreRendered.run fold_left]. apply IH; [exact Hall|].
  now apply pre_call_paced.
Qed.

Lemma opacity_call_paced (r0 : Q) (st : OpacityDot.t * Host.t) (c : OpacityDot.Call) :
  opacity_clock_below T c = true ->
  opacity_paced T r0 st -> opacity_paced T r0 (OpacityDot.call rz st c).
Proof.
  destruct st as [s h]. unfold opacity_paced. cbn [fst snd].
  intros Hc [Hr Ht]. destruct c as [|now now2|b|k]; try (split; assumption).
  - cbn [OpacityDot.call fst snd]. unfold OpacityDot.onAdd.
    destruct (Host.global_context h); split; assumption.
  - cbn [opacity_clock_below] in Hc. apply Qle_bool_iff in Hc.
    cbn [OpacityDot.call fst snd].
    destruct (Js.ltb (now - OpacityDot.lastUpdate s) OpacityDot.updateInterval)
      eqn:Hgate.
    + apply ltb_true_iff in Hgate.
      rewrite (opacity_gate_closed rz h s now now2 Hgate). split; assumption.
    + apply ltb_false_iff in Hgate.
      pose proof (opacity_gate_open_time rz h s now now2 Hgate) as Hlast.
      pose proof (opacity_render_host h s now now2) as Hhost.
      destruct (OpacityDot.render rz h s now now2) as [[o s1] h1].
      cbn [fst snd] in *. subst now. unfold OpacityDot.updateInterval in *.
      split; [|exact Hc].
      destruct Hhost as [->| ->]; [|rewrite repaint_count_succ]; Lqa.lra.
Qed.

Lemma opacity_run_paced (r0 : Q) (calls : list OpacityDot.Call) :
  forall st,
    forallb (opacity_clock_below T) calls = true ->
    opacity_paced T r0 st -> opacity_paced T r0 (OpacityDot.run rz calls st).
Proof.
  induction calls as [|c calls IH]; intros st Hall H; [exact H|].
  cbn [forallb] in Hall. apply andb_true_iff in Hall. destruct Hall as [Hc Hall].
  cbn [OpacityDot.run fold_left]. apply IH; [exact Hall|].
  now apply opacity_call_paced.
Qed.

End RateLimit.

(** X1. The gate limits the rate of repaints. Whatever the host calls on a
    marker it has just built ([onAdd], [render], writes to the stop flag,
    changes of the page's global [context]), in any order and number, if
    no [render] reads a clock beyond [T] then the repaints triggered, times
    the interval (100, 100 and 50 ms), do not exceed [T]. *)
Theorem repaint_rate_limit :
  forall (rz : Canvas.Rasterizer) (line156 : PreRendered.Line156) (T : Q) (h : Host.t)
         (isCarrierVehicleOnRoute isGrey : bool),
    (0 <= T)%Q ->
    (forall calls,
        forallb (low_clock_below T) calls = true ->
        ((repaint_count
            (snd (LowFrameRate.run rz calls
                    (createLowFrameRatePulsingDot isCarrierVehicleOnRoute isGrey, h)))
          - repaint_count h) * LowFrameRate.updateInterval <= T)%Q)
    /\ (forall calls,
          forallb (pre_clock_below T) calls = true ->
          ((repaint_count
              (snd (PreRendered.run rz line156 calls
                      (createPreRenderedPulsingDot isCarrierVehicleOnRoute isGrey, h)))
            - repaint_count h) * PreRendered.frameInterval <= T)%Q)
    /\ (forall calls,
          forallb (opacity_clock_below T) calls = true ->
          ((repaint_count
              (snd (OpacityDot.run rz calls
                      (createOpacityPulsingDot isCarrierVehicleOnRoute isGrey, h)))
            - repaint_count h) * OpacityDot.updateInterval <= T)%Q).
Proof.
  intros rz line156 T h a b HT. split; [|split]; intros calls Hcalls.
  - destruct (low_run_paced rz T (repaint_count h) calls
                (createLowFrameRatePulsingDot a b, h) Hcalls) as [Hr Hl].
    { split; cbn [fst snd createLowFrameRatePulsingDot LowFrameRate.lastUpdate];
        [Lqa.lra|exact HT]. }
    unfold LowFrameRate.updateInterval in *. Lqa.lra.
  - destruct (pre_run_paced rz line156 T (repaint_count h) calls
                (createPreRenderedPulsingDot a b, h) Hcalls) as [Hr Hl].
    { split; cbn [fst snd createPreRenderedPulsingDot PreRendered.lastUpdate];
        [Lqa.lra|exact HT]. }
    unfold PreRendered.frameInterval in *. Lqa.lra.
  - destruct (opacity_run_paced rz T (repaint_count h) calls
                (createOpacityPulsingDot a b, h) Hcalls) as [Hr Hl].
    { split; cbn [fst snd createOpacityPulsingDot OpacityDot.lastUpdate];
        [Lqa.lra|exact HT]. }
    unfold OpacityDot.updateInterval in *. Lqa.lra.
Qed.

Lemma repaint_rate_limit_witness :
  ((repaint_count
      (snd (LowFrameRate.run SampleRaster.discs
              [LowFrameRate.OnAdd; LowFrameRate.Render 100 101;
               LowFrameRate.Render 150 151; LowFrameRate.Render 250 251]
              (createLowFrameRatePulsingDot false false, Host.plain)))
    - repaint_count Host.plain) * LowFrameRate.updateInterval <= 250)%Q.
Proof.
  assert (H0 : (0 <= 250)%Q) by discriminate.
  exact (proj1 (repaint_rate_limit SampleRaster.discs Samples.as_line_89 250
                  Host.plain false false H0)
               [LowFrameRate.OnAdd; LowFrameRate.Render 100 101;
                LowFrameRate.Render 150 151; LowFrameRate.Render 250 251]
               eq_refl).
Defined.

(** ** Rendering before the marker is added *)

Lemma low_render_no_context (rz : Canvas.Rasterizer) (h : Host.t)
      (s : LowFrameRate.t) (now now2 : Q) :
  LowFrameRate.context s = None ->
  (LowFrameRate.updateInterval <= now - LowFrameRate.lastUpdate s)%Q ->
  LowFrameRate.render rz h s now now2
  = (Js.Threw Js.TypeError, LowFrameRate.set_lastUpdate now s, h).
Proof.
  intros Hk Hgate. unfold LowFrameRate.render.
  apply ltb_false_iff in Hgate. rewrite Hgate.
  destruct s as [sz w hh d c g st ctx lu]. cbn in Hk. subst ctx. reflexivity.
Qed.

Lemma opacity_render_no_context (rz : Canvas.Rasterizer) (h : Host.t)
      (s : OpacityDot.t) (now now2 : Q) :
  OpacityDot.context s = None ->
  OpacityDot.stopPulse s = false ->
  (OpacityDot.updateInterval <= now - OpacityDot.lastUpdate s)%Q ->
  OpacityDot.render rz h s now now2
  = (Js.Threw Js.TypeError, OpacityDot.set_lastUpdate now s, h).
Proof.
  intros Hk Hstop Hgate. unfold OpacityDot.render.
  apply ltb_false_iff in Hgate. rewrite Hgate.
  destruct s as [sz w hh d c g st ctx lu]. cbn in Hk, Hstop. subst ctx st.
  reflexivity.
Qed.

(** X2. A marker as the factory returns it has no context. On such a
    marker a [render] the gate admits throws a TypeError (in the opacity
    variant when the stop flag is clear), after it has stored the clock
    reading: [data] and the repaint count are untouched, and a second
    [render] less than the interval later returns false without
    throwing. *)
Theorem render_before_onAdd_throws :
  forall (rz : Canvas.Rasterizer) (h : Host.t) (now now2 : Q),
    (forall s,
        LowFrameRate.context s = None ->
        (LowFrameRate.updateInterval <= now - LowFrameRate.lastUpdate s)%Q ->
        LowFrameRate.render rz h s now now2
        = (Js.Threw Js.TypeError, LowFrameRate.set_lastUpdate now s, h)
        /\ forall next next2,
             (next - now < LowFrameRate.updateInterval)%Q ->
             LowFrameRate.render rz h (LowFrameRate.set_lastUpdate now s) next next2
             = (Js.Returned false, LowFrameRate.set_lastUpdate now s, h))
    /\ (forall s,
          OpacityDot.context s = None ->
          OpacityDot.stopPulse s = false ->
          (OpacityDot.updateInterval <= now - OpacityDot.lastUpdate s)%Q ->
          OpacityDot.render rz h s now now2
          = (Js.Threw Js.TypeError, OpacityDot.set_lastUpdate now s, h)
          /\ forall next next2,
               (next - now < OpacityDot.updateInterval)%Q ->
               OpacityDot.render rz h (OpacityDot.set_lastUpdate now s) next next2
               = (Js.Returned false, OpacityDot.set_lastUpdate now s, h))
    /\ (forall isCarrierVehicleOnRoute isGrey,
          LowFrameRate.context
            (createLowFrameRatePulsingDot isCarrierVehicleOnRoute isGrey) = None
          /\ OpacityDot.context
               (createOpacityPulsingDot isCarrierVehicleOnRoute isGrey) = None
          /\ OpacityDot.stopPulse
               (createOpacityPulsingDot isCarrierVehicleOnRoute isGrey) = false).
Proof.
  intros rz h now now2. split; [|split].
  - intros s Hk Hgate. split; [now apply low_render_no_context|].
    intros next next2 Hnext. now apply low_gate_closed.
  - intros s Hk Hstop Hgate. split; [now apply opacity_render_no_context|].
    intros next next2 Hnext. now apply opacity_gate_closed.
  - intros a b. repeat split.
Qed.

Lemma render_before_onAdd_throws_witness :
  LowFrameRate.render SampleRaster.discs Host.plain
    (createLowFrameRatePulsingDot false false) 100 101
  = (Js.Threw Js.TypeError,
     LowFrameRate.set_lastUpdate 100 (createLowFrameRatePulsingDot false false),
     Host.plain).
Proof.
  refine (proj1 (proj1 (render_before_onAdd_throws SampleRaster.discs Host.plain 100 101)
                       (createLowFrameRatePulsingDot false false) eq_refl _)).
  discriminate.
Defined.

(** ** The canvas the marker creates *)

Section OwnCanvas.

Variable rz : Canvas.Rasterizer.
Variable line156 : PreRendered.Line156.

Lemma opacity_call_unpainted (st : OpacityDot.t * Host.t) (c : OpacityDot.Call) :
  opacity_unpainted (fst st) -> opacity_unpainted (fst (OpacityDot.call rz st c)).
Proof.
  destruct st as [s h]. cbn [fst]. intros (Hw & Hh & Hk).
  destruct c as [|now now2|b|k].
  - cbn [OpacityDot.call fst snd]. unfold OpacityDot.onAdd.
    assert (Hnew : opacity_unpainted
                     (OpacityDot.set_context
                        (Canvas.createContext (OpacityDot.width s) (OpacityDot.height s))
                        s)).
    { unfold opacity_unpainted. cbn [OpacityDot.set_context OpacityDot.width
                                     OpacityDot.height OpacityDot.context].
      rewrite Hw, Hh. repeat split; try assumption. now right. }
    destruct (Host.global_context h); exact Hnew.
  - cbn [OpacityDot.call fst snd].
    destruct s as [sz w hh d cr g st ctx lu].
    unfold OpacityDot.render.
    cbn [OpacityDot.lastUpdate OpacityDot.set_lastUpdate OpacityDot.stopPulse
         OpacityDot.context OpacityDot.size OpacityDot.width OpacityDot.height
         OpacityDot.data OpacityDot.isCarrierVehicleOnRoute OpacityDot.isGrey].
    destruct (Js.ltb _ _); [repeat split; assumption|].
    destruct st; [repeat split; assumption|].
    destruct ctx; repeat split; assumption.
  - repeat split; assumption.
  - repeat split; assumption.
Qed.

Lemma opacity_run_unpainted (calls : list OpacityDot.Call) :
  forall st, opacity_unpainted (fst st) ->
             opacity_unpainted (fst (OpacityDot.run rz calls st)).
Proof.
  induction calls as [|c calls IH]; intros st H; [exact H|].
  cbn [OpacityDot.run fold_left]. apply IH, opacity_call_unpainted, H.
Qed.

Lemma pre_call_unpainted (st : PreRendered.t * Host.t) (c : PreRendered.Call) :
  pre_unpainted (fst st) -> pre_unpainted (fst (PreRendered.call rz line156 st c)).
Proof.
  destruct st as [s h]. cbn [fst]. intros (Hw & Hh & Hk).
  destruct c as [|now|b|k].
  - cbn [PreRendered.call fst snd].
    destruct (Host.global_context h) as [k|] eqn:Hg.
    + destruct (pre_onAdd_global rz line156 h s k Hg) as (h' & frames & -> & _).
      cbn [fst]. unfold pre_unpainted.
      cbn [PreRendered.set_preRenderedFrames PreRendered.set_context
           PreRendered.width PreRendered.height PreRendered.context].
      rewrite Hw, Hh. repeat split; try assumption. now right.
    + rewrite (pre_onAdd_no_global rz line156 h s Hg). cbn [fst]. unfold pre_unpainted.
      cbn [PreRendered.set_preRenderedFrames PreRendered.set_context
           PreRendered.width PreRendered.height PreRendered.context].
      rewrite Hw, Hh. repeat split; try assumption. now right.
  - cbn [PreRendered.call fst snd].
    destruct s as [sz w hh d cr g st [f|] ctx cf lu cols]; unfold PreRendered.render;
      cbn [PreRendered.lastUpdate PreRendered.set_lastUpdate
           PreRendered.preRenderedFrames];
      destruct (Js.ltb _ _); try (repeat split; assumption).
    destruct (0 <? length f)%nat; repeat split; assumption.
  - repeat split; assumption.
  - repeat split; assumption.
Qed.

Lemma pre_run_unpainted (calls : list PreRendered.Call) :
  forall st, pre_unpainted (fst st) ->
             pre_unpainted (fst (PreRendered.run rz line156 calls st)).
Proof.
  induction calls as [|c calls IH]; intros st H; [exact H|].
  cbn [PreRendered.run fold_left]. apply IH, pre_call_unpainted, H.
Qed.

End OwnCanvas.

(** X3. In the opacity and the pre-rendered marker no drawing call ever
    reaches the canvas the marker creates: [onAdd] stores the new context
    in [this.context] and draws through the identifier [context]. After
    any sequence of calls, on any page, the marker's context is absent or
    that of a blank 75 by 75 canvas; so every [data] an opacity [render]
    produces is the scaled image of a blank canvas. *)
Theorem own_canvas_never_painted :
  forall (rz : Canvas.Rasterizer) (line156 : PreRendered.Line156) (h : Host.t)
         (isCarrierVehicleOnRoute isGrey : bool),
    (forall calls,
        let s := fst (OpacityDot.run rz calls
                        (createOpacityPulsingDot isCarrierVehicleOnRoute isGrey, h)) in
        OpacityDot.context s = None
        \/ OpacityDot.context s = Some (Canvas.createContext 75 75))
    /\ (forall calls,
          let s := fst (PreRendered.run rz line156 calls
                          (createPreRenderedPulsingDot isCarrierVehicleOnRoute isGrey, h)) in
          PreRendered.context s = None
          \/ PreRendered.context s = Some (Canvas.createContext 75 75))
    /\ (forall calls now now2 s' h',
          let st := OpacityDot.run rz calls
                      (createOpacityPulsingDot isCarrierVehicleOnRoute isGrey, h) in
          OpacityDot.render rz (snd st) (fst st) now now2 = (Js.Returned true, s', h') ->
          OpacityDot.data s'
          = OpacityDot.scale_alpha (OpacityDot.opacity (OpacityDot.phase now2))
              (Canvas.getImageData rz (Canvas.createContext 75 75) 75 75)).
Proof.
  intros rz line156 h a b.
  assert (Hop : forall calls,
             opacity_unpainted
               (fst (OpacityDot.run rz calls (createOpacityPulsingDot a b, h)))).
  { intro calls. apply opacity_run_unpainted. repeat split. now left. }
  split; [|split].
  - intro calls. apply Hop.
  - intro calls.
    apply (pre_run_unpainted rz line156 calls (createPreRenderedPulsingDot a b, h)).
    repeat split. now left.
  - intros calls now now2 s' h' st Hr.
    destruct (Hop calls) as (Hw & Hh & Hk). fold st in Hw, Hh, Hk.
    destruct (opacity_render_true rz _ _ _ _ _ _ Hr) as (k & Hk' & _ & _ & -> & _).
    rewrite Hk' in Hk. destruct Hk as [Hk|Hk]; [discriminate|].
    injection Hk as ->.
    cbn [OpacityDot.set_data OpacityDot.data]. now rewrite Hw, Hh.
Qed.

(** ** The pre-rendered marker and the global context *)

Section PreRenderedIdle.

Variable rz : Canvas.Rasterizer.
Variable line156 : PreRendered.Line156.

Lemma pre_render_idle (r : nat) (s : PreRendered.t) (h : Host.t) (now : Q) :
  pre_idle r (s, h) ->
  fst (fst (PreRendered.render h s now)) = false
  /\ pre_idle r (snd (fst (PreRendered.render h s now)), snd (PreRendered.render h s now)).
Proof.
  unfold pre_idle. cbn [fst snd]. intros (Hg & Hr & Hd & Hc & Hf).
  destruct s as [sz w hh d cr g st f ctx cf lu cols].
  cbn [PreRendered.data PreRendered.currentFrame PreRendered.preRenderedFrames] in *.
  unfold PreRendered.render.
  cbn [PreRendered.lastUpdate PreRendered.set_lastUpdate PreRendered.preRenderedFrames].
  destruct (Js.ltb _ _); [repeat split; assumption|].
  destruct Hf as [->| ->]; cbn [length Nat.ltb Nat.leb fst snd];
    repeat split; try assumption; auto.
Qed.

Lemma pre_call_idle (r : nat) (st : PreRendered.t * Host.t) (c : PreRendered.Call) :
  pre_binds_nothing c = true ->
  pre_idle r st -> pre_idle r (PreRendered.call rz line156 st c).
Proof.
  destruct st as [s h]. intros Hc Hidle.
  destruct c as [|now|b|[k|]]; try discriminate Hc.
  - destruct Hidle as (Hg & Hr & Hd & Hcf & Hf). cbn [fst snd] in *.
    cbn [PreRendered.call fst snd]. rewrite (pre_onAdd_no_global rz line156 h s Hg).
    unfold pre_idle. cbn [fst snd PreRendered.set_preRenderedFrames
                          PreRendered.set_context PreRendered.data
                          PreRendered.currentFrame PreRendered.preRenderedFrames].
    repeat split; try assumption. now right.
  - cbn [PreRendered.call fst snd].
    destruct (pre_render_idle r s h now Hidle) as [_ H].
    destruct (PreRendered.render h s now) as [[o s1] h1]. exact H.
  - exact Hidle.
  - destruct Hidle as (Hg & Hr & Hd & Hcf & Hf). repeat split; assumption.
Qed.

Lemma pre_run_idle (r : nat) (calls : list PreRendered.Call) :
  forall st,
    forallb pre_binds_nothing calls = true ->
    pre_idle r st -> pre_idle r (PreRendered.run rz line156 calls st).
Proof.
  induction calls as [|c calls IH]; intros st Hall H; [exact H|].
  cbn [forallb] in Hall. apply andb_true_iff in Hall. destruct Hall as [Hc Hall].
  cbn [PreRendered.run fold_left]. apply IH; [exact Hall|].
  now apply pre_call_idle.
Qed.

End PreRenderedIdle.

(** X4. On a page that has no global [context] and is given none, the
    pre-rendered marker never animates: after any sequence of [onAdd],
    [render] and stop-flag calls no repaint has been triggered, [data] is
    the zero buffer the factory allocated, the frame index is 0, and the
    next [render] returns false whatever the clock reads. *)
Theorem prerendered_never_animates_without_global :
  forall (rz : Canvas.Rasterizer) (line156 : PreRendered.Line156) (h : Host.t)
         (isCarrierVehicleOnRoute isGrey : bool) (calls : list PreRendered.Call),
    Host.global_context h = None ->
    forallb pre_binds_nothing calls = true ->
    let st := PreRendered.run rz line156 calls
                (createPreRenderedPulsingDot isCarrierVehicleOnRoute isGrey, h) in
    Host.repaints (snd st) = Host.repaints h
    /\ PreRendered.data (fst st) = Some (Js.Uint8Array (75 * 75 * 4))
    /\ PreRendered.currentFrame (fst st) = 0%nat
    /\ forall now, fst (fst (PreRendered.render (snd st) (fst st) now)) = false.
Proof.
  intros rz line156 h a b calls Hg Hcalls st.
  assert (Hidle : pre_idle (Host.repaints h) st).
  { apply pre_run_idle; [exact Hcalls|].
    unfold pre_idle. cbn [fst snd]. repeat split; try assumption. now left. }
  pose proof Hidle as (_ & Hr & Hd & Hc & _).
  repeat split; try assumption.
  intro now. destruct st as [s1 h1]. apply (pre_render_idle _ _ _ _ Hidle).
Qed.

Lemma prerendered_never_animates_without_global_witness :
  Host.repaints
    (snd (PreRendered.run SampleRaster.discs Samples.as_line_89
            [PreRendered.OnAdd; PreRendered.Render 100; PreRendered.SetStopPulse true;
             PreRendered.Render 250]
            (createPreRenderedPulsingDot false true, Host.plain)))
  = 0%nat.
Proof.
  exact (proj1 (prerendered_never_animates_without_global SampleRaster.discs
                  Samples.as_line_89 Host.plain false true
                  [PreRendered.OnAdd; PreRendered.Render 100;
                   PreRendered.SetStopPulse true; PreRendered.Render 250]
                  eq_refl eq_refl)).
Defined.

(** X6. The pre-rendered marker never reads its stop flag: writing the
    flag before a [render] changes neither the value returned, nor the
    repaints, nor anything else of the object than the flag itself; and
    the frames are drawn the same whatever the flag is. *)
Theorem prerendered_ignores_stop_flag :
  forall (h : Host.t) (s : PreRendered.t) (b : bool) (now : Q),
    PreRendered.render h (PreRendered.set_stopPulse b s) now
    = (fst (fst (PreRendered.render h s now)),
       PreRendered.set_stopPulse b (snd (fst (PreRendered.render h s now))),
       snd (PreRendered.render h s now))
    /\ forall line156 i k,
         PreRendered.draw_frame line156 (PreRendered.set_stopPulse b s) i k
         = PreRendered.draw_frame line156 s i k.
Proof.
  intros h s b now. split; [|reflexivity].
  destruct s as [sz w hh d cr g st [f|] ctx cf lu cols]; unfold PreRendered.render;
    cbn [PreRendered.set_stopPulse PreRendered.lastUpdate PreRendered.set_lastUpdate
         PreRendered.preRenderedFrames PreRendered.size PreRendered.width
         PreRendered.height PreRendered.data PreRendered.isCarrierVehicleOnRoute
         PreRendered.isGrey PreRendered.stopPulse PreRendered.context
         PreRendered.currentFrame PreRendered.closure_colors];
    destruct (Js.ltb _ _); try reflexivity.
  destruct (0 <? length f)%nat; reflexivity.
Qed.

(** ** The phase of the animation *)

Section PhaseFacts.

Local Open Scope Q_scope.

Lemma Qfloor_unique (q : Q) (z : Z) :
  inject_Z z <= q -> q < inject_Z (z + 1) -> Qfloor q = z.
Proof.
  intros Hlo Hhi.
  pose proof (Qfloor_le q) as Hf. pose proof (Qlt_floor q) as Hg.
  assert (H1 : (z < Qfloor q + 1)%Z).
  { rewrite Zlt_Qlt. eapply Qle_lt_trans; eassumption. }
  assert (H2 : (Qfloor q < z + 1)%Z).
  { rewrite Zlt_Qlt. eapply Qle_lt_trans; eassumption. }
  lia.
Qed.

Lemma Qfloor_succ (q : Q) : Qfloor (q + 1) = (Qfloor q + 1)%Z.
Proof.
  pose proof (Qfloor_le q) as Hf. pose proof (Qlt_floor q) as Hg.
  apply Qfloor_unique.
  - rewrite inject_Z_plus. change (inject_Z 1) with 1. Lqa.lra.
  - rewrite !inject_Z_plus in *. change (inject_Z 1) with 1 in *. Lqa.lra.
Qed.

Lemma Qfloor_below (q : Q) (n : Z) : q < inject_Z n -> (Qfloor q < n)%Z.
Proof.
  intro H. rewrite Zlt_Qlt. eapply Qle_lt_trans; [apply Qfloor_le|exact H].
Qed.

Lemma Qfloor_above (q : Q) (n : Z) : inject_Z n <= q -> (n <= Qfloor q)%Z.
Proof.
  intro H. rewrite <- (Qfloor_Z n). now apply Qfloor_resp_le.
Qed.

End PhaseFacts.

(** X7. On a clock that is not negative, the phase both animated markers
    compute from it lies in [0, 1) and repeats every 2000 ms. *)
Theorem phase_in_range_and_periodic :
  forall now : Q,
    (0 <= now)%Q ->
    (0 <= LowFrameRate.phase now)%Q
    /\ (LowFrameRate.phase now < 1)%Q
    /\ (LowFrameRate.phase (now + 2000) == LowFrameRate.phase now)%Q
    /\ OpacityDot.phase now = LowFrameRate.phase now.
Proof.
  intros now H0.
  change (LowFrameRate.phase (now + 2000)) with (OpacityDot.phase (now + 2000)).
  change (LowFrameRate.phase now) with (OpacityDot.phase now).
  destruct (phase_range now H0) as [Hlo Hhi].
  split; [exact Hlo|]. split; [exact Hhi|]. split; [|reflexivity].
  assert (H1 : (0 <= now + 2000)%Q).
  { apply Qle_trans with (0 + 0)%Q; [discriminate|].
    apply Qplus_le_compat; [exact H0|discriminate]. }
  rewrite (phase_fraction now H0), (phase_fraction (now + 2000) H1).
  assert (E : ((now + 2000) / OpacityDot.duration == now / OpacityDot.duration + 1)%Q).
  { unfold OpacityDot.duration. field. }
  rewrite (Qfloor_comp _ _ E), Qfloor_succ, inject_Z_plus.
  change (inject_Z 1) with 1%Q.
  set (u := (now / OpacityDot.duration)%Q) in *.
  set (v := ((now + 2000) / OpacityDot.duration)%Q) in *.
  set (z := inject_Z (Qfloor u)). clearbody u v z. Lqa.lra.
Qed.

Lemma phase_in_range_and_periodic_witness :
  (LowFrameRate.phase (5001 + 2000) == LowFrameRate.phase 5001)%Q.
Proof.
  refine (proj1 (proj2 (proj2 (phase_in_range_and_periodic 5001 _)))).
  discriminate.
Defined.

(** ** Rounding to binary64 *)

Section Binary64.

Local Open Scope Q_scope.

Lemma pow2_pos (e : Z) : 0 < Js.pow2 e.
Proof. apply Qpower_0_lt. reflexivity. Qed.

Lemma pow2_le (e1 e2 : Z) : (e1 <= e2)%Z -> Js.pow2 e1 <= Js.pow2 e2.
Proof. intro H. apply Qpower_le_compat_l; [exact H|discriminate]. Qed.

Lemma pow2_lt_inv (e1 e2 : Z) : Js.pow2 e1 < Js.pow2 e2 -> (e1 < e2)%Z.
Proof. intro H. apply (Qpower_lt_compat_l_inv 2); [exact H|reflexivity]. Qed.

Lemma pow2_plus (a b : Z) : Js.pow2 (a + b) == Js.pow2 a * Js.pow2 b.
Proof. apply Qpower_plus. discriminate. Qed.

Lemma pow2_Z (n : Z) : (0 <= n)%Z -> inject_Z (2 ^ n) == Js.pow2 n.
Proof. intro H. exact (Zpower_Qpower 2 n H). Qed.

(** [ilog2] brackets a positive number between two powers of two. *)
Lemma ilog2_spec (q : Q) :
  0 < q -> Js.pow2 (Js.ilog2 q) <= q /\ q < Js.pow2 (Js.ilog2 q + 1).
Proof.
  intro Hq. unfold Js.ilog2.
  destruct q as [n d]. cbn [Qnum Qden].
  assert (Hn : (0 < n)%Z).
  { unfold Qlt in Hq. cbn in Hq. lia. }
  destruct (Z.log2_spec n Hn) as [Ha1 Ha2].
  destruct (Z.log2_spec (Zpos d) (Pos2Z.is_pos d)) as [Hb1 Hb2].
  pose proof (Z.log2_nonneg n) as Ha0.
  pose proof (Z.log2_nonneg (Zpos d)) as Hb0.
  set (a := Z.log2 n) in *. set (b := Z.log2 (Zpos d)) in *.
  rewrite Zle_Qle, pow2_Z in Ha1, Hb1 by lia.
  rewrite Zlt_Qlt, pow2_Z in Ha2, Hb2 by lia.
  assert (Hd : 0 < inject_Z (Zpos d)) by reflexivity.
  assert (E : n # d == inject_Z n / inject_Z (Zpos d)) by apply Qmake_Qdiv.
  assert (U : n # d < Js.pow2 (a - b + 1)).
  { rewrite E. apply Qlt_shift_div_r; [exact Hd|].
    apply (Qlt_le_trans _ (Js.pow2 (Z.succ a))); [exact Ha2|].
    replace (Z.succ a) with ((a - b + 1) + b)%Z by lia.
    rewrite pow2_plus.
    apply Qmult_le_l; [apply pow2_pos|exact Hb1]. }
  assert (L : Js.pow2 (a - b - 1) < n # d).
  { rewrite E. apply Qlt_shift_div_l; [exact Hd|].
    apply (Qlt_le_trans _ (Js.pow2 a)); [|exact Ha1].
    replace a with ((a - b - 1) + Z.succ b)%Z at 2 by lia.
    rewrite pow2_plus.
    apply Qmult_lt_l; [apply pow2_pos|exact Hb2]. }
  destruct (Qle_bool (Js.pow2 (a - b)) (n # d)) eqn:T.
  - apply Qle_bool_iff in T. split; [exact T|exact U].
  - split; [apply Qlt_le_weak, L|].
    replace (a - b - 1 + 1)%Z with (a - b)%Z by lia.
    apply Qnot_le_lt. intro C. apply Qle_bool_iff in C. congruence.
Qed.

Lemma ilog2_mono (x y : Q) : 0 < x -> x <= y -> (Js.ilog2 x <= Js.ilog2 y)%Z.
Proof.
  intros Hx Hxy.
  destruct (ilog2_spec x Hx) as [Hx1 _].
  destruct (ilog2_spec y (Qlt_le_trans _ _ _ Hx Hxy)) as [_ Hy2].
  assert (H : Js.pow2 (Js.ilog2 x) < Js.pow2 (Js.ilog2 y + 1)).
  { apply (Qle_lt_trans _ x); [exact Hx1|].
    apply (Qle_lt_trans _ y); assumption. }
  apply pow2_lt_inv in H. lia.
Qed.

Lemma nearest_even_bounds (q : Q) :
  (Qfloor q <= Js.nearest_even q <= Qfloor q + 1)%Z.
Proof.
  unfold Js.nearest_even.
  destruct (Js.ltb _ _); [lia|]. destruct (Js.ltb _ _); [lia|].
  destruct (Z.even _); lia.
Qed.

Lemma nearest_even_Z (n : Z) : Js.nearest_even (inject_Z n) = n.
Proof.
  unfold Js.nearest_even. rewrite Qfloor_Z.
  replace (Js.ltb (inject_Z n - inject_Z n) (1 # 2)) with true; [reflexivity|].
  symmetry. apply ltb_true_iff. Lqa.lra.
Qed.

Lemma nearest_even_mono (x y : Q) :
  x <= y -> (Js.nearest_even x <= Js.nearest_even y)%Z.
Proof.
  intro Hxy.
  pose proof (Qfloor_resp_le x y Hxy) as Hf.
  pose proof (nearest_even_bounds x) as Bx.
  pose proof (nearest_even_bounds y) as By.
  destruct (Z.eq_dec (Qfloor x) (Qfloor y)) as [E|NE]; [|lia].
  unfold Js.nearest_even in *. rewrite <- E in *.
  set (f := Qfloor x) in *. clearbody f.
  destruct (Js.ltb (x - inject_Z f) (1 # 2)) eqn:X1; [lia|].
  apply ltb_false_iff in X1.
  destruct (Js.ltb (y - inject_Z f) (1 # 2)) eqn:Y1.
  { apply ltb_true_iff in Y1. exfalso. Lqa.lra. }
  destruct (Js.ltb (1 # 2) (y - inject_Z f)) eqn:Y2; [lia|].
  apply ltb_false_iff in Y2.
  destruct (Js.ltb (1 # 2) (x - inject_Z f)) eqn:X2.
  { apply ltb_true_iff in X2. exfalso. Lqa.lra. }
  lia.
Qed.

Lemma round_pos_nonneg (a : Q) : 0 <= a -> 0 <= round_pos a.
Proof.
  intro Ha. unfold round_pos.
  set (e := Z.max _ _). clearbody e.
  apply Qmult_le_0_compat; [|apply Qlt_le_weak, pow2_pos].
  change 0 with (inject_Z 0). rewrite <- Zle_Qle.
  rewrite <- (nearest_even_Z 0). apply nearest_even_mono.
  apply Qle_shift_div_l; [apply pow2_pos|]. change (inject_Z 0) with 0. Lqa.lra.
Qed.

Lemma round_pos_mono (x y : Q) : 0 < x -> x <= y -> round_pos x <= round_pos y.
Proof.
  intros Hx Hxy.
  assert (Hy : 0 < y) by (apply (Qlt_le_trans _ x); assumption).
  pose proof (ilog2_mono x y Hx Hxy) as Hl.
  unfold round_pos.
  set (ex := Z.max (Js.ilog2 x - 52) (-1074)).
  set (ey := Z.max (Js.ilog2 y - 52) (-1074)).
  assert (Hex : (ex <= ey)%Z) by (unfold ex, ey; lia).
  destruct (Z.eq_dec ex ey) as [E|NE].
  - rewrite <- E.
    apply Qmult_le_compat_r; [|apply Qlt_le_weak, pow2_pos].
    rewrite <- Zle_Qle. apply nearest_even_mono.
    apply Qmult_le_compat_r; [exact Hxy|].
    apply Qlt_le_weak, Qinv_lt_0_compat, pow2_pos.
  - assert (Ey : ey = (Js.ilog2 y - 52)%Z) by (unfold ex, ey in *; lia).
    assert (Hlt : (Js.ilog2 x + 1 <= Js.ilog2 y)%Z) by (unfold ex, ey in *; lia).
    destruct (ilog2_spec x Hx) as [_ Hx2].
    destruct (ilog2_spec y Hy) as [Hy1 _].
    apply (Qle_trans _ (Js.pow2 (Js.ilog2 y))).
    + (* the rounding of x stays below the power of two *)
      set (n := (Js.ilog2 y - ex)%Z).
      assert (Hn : (0 <= n)%Z) by (unfold n; lia).
      replace (Js.ilog2 y) with (n + ex)%Z by (unfold n; lia).
      rewrite pow2_plus.
      apply Qmult_le_compat_r; [|apply Qlt_le_weak, pow2_pos].
      rewrite <- (pow2_Z n Hn), <- Zle_Qle.
      rewrite <- (nearest_even_Z (2 ^ n)). apply nearest_even_mono.
      rewrite (pow2_Z n Hn).
      apply Qle_shift_div_r; [apply pow2_pos|].
      rewrite <- pow2_plus. replace (n + ex)%Z with (Js.ilog2 y) by (unfold n; lia).
      apply Qlt_le_weak, (Qlt_le_trans _ _ _ Hx2), pow2_le, Hlt.
    + replace (Js.ilog2 y) with (52 + ey)%Z at 1 by lia.
      rewrite pow2_plus.
      apply Qmult_le_compat_r; [|apply Qlt_le_weak, pow2_pos].
      rewrite <- (pow2_Z 52) by lia. rewrite <- Zle_Qle.
      rewrite <- (nearest_even_Z (2 ^ 52)) at 1. apply nearest_even_mono.
      rewrite (pow2_Z 52) by lia.
      apply Qle_shift_div_l; [apply pow2_pos|].
      rewrite <- pow2_plus. replace (52 + ey)%Z with (Js.ilog2 y) by lia.
      exact Hy1.
Qed.

Lemma double_pos (q : Q) : 0 < q -> Js.double q == round_pos q.
Proof.
  intro H. unfold Js.double.
  destruct (Qeq_bool q 0) eqn:E.
  { apply Qeq_bool_iff in E. rewrite E in H. discriminate. }
  replace (Js.ltb q 0) with false
    by (symmetry; apply ltb_false_iff, Qlt_le_weak, H).
  rewrite Qred_correct.
  destruct q as [[|p|p] d]; try discriminate H. reflexivity.
Qed.

Lemma double_neg (q : Q) : q < 0 -> Js.double q == - round_pos (- q).
Proof.
  intro H. unfold Js.double.
  destruct (Qeq_bool q 0) eqn:E.
  { apply Qeq_bool_iff in E. rewrite E in H. discriminate. }
  replace (Js.ltb q 0) with true by (symmetry; apply ltb_true_iff, H).
  rewrite Qred_correct.
  destruct q as [[|p|p] d]; try discriminate H. reflexivity.
Qed.

Lemma double_zero (q : Q) : q == 0 -> Js.double q = 0.
Proof.
  intro H. unfold Js.double.
  apply Qeq_bool_iff in H. now rewrite H.
Qed.

(** The sign of a number survives the rounding. *)
Lemma double_sign (q : Q) :
  (0 <= q -> 0 <= Js.double q) /\ (q <= 0 -> Js.double q <= 0).
Proof.
  destruct (Q_dec q 0) as [[Hn|Hp]|Hz].
  - rewrite (double_neg q Hn).
    assert (0 <= round_pos (- q)) by (apply round_pos_nonneg; Lqa.lra).
    split; intro; Lqa.lra.
  - rewrite (double_pos q Hp).
    assert (0 <= round_pos q) by (apply round_pos_nonneg; Lqa.lra).
    split; intro; Lqa.lra.
  - rewrite (double_zero q Hz). split; intro; apply Qle_refl.
Qed.

(** Rounding to the nearest binary64 number keeps the order. *)
Lemma double_mono (x y : Q) : x <= y -> Js.double x <= Js.double y.
Proof.
  intro Hxy.
  destruct (Qlt_le_dec 0 x) as [Hx|Hx].
  - rewrite (double_pos x Hx), (double_pos y (Qlt_le_trans _ _ _ Hx Hxy)).
    now apply round_pos_mono.
  - destruct (Qlt_le_dec y 0) as [Hy|Hy].
    + rewrite (double_neg y Hy), (double_neg x (Qle_lt_trans _ _ _ Hxy Hy)).
      apply Qopp_le_compat, round_pos_mono; Lqa.lra.
    + apply (Qle_trans _ 0).
      * now apply double_sign.
      * now apply double_sign.
Qed.

End Binary64.

(** ** The outer circle of the reduced frame rate marker *)

Section Fade.

Local Open Scope Q_scope.

Lemma toFixed2_nonneg (x : Q) :
  0 <= x ->
  Js.toFixed2 x == inject_Z (Qfloor (x * 100 + (1 # 2))) / 100.
Proof.
  intro H. unfold Js.toFixed2.
  replace (Js.ltb x 0) with false by (symmetry; now apply ltb_false_iff).
  assert (E : Qabs x * 100 + (1 # 2) == x * 100 + (1 # 2))
    by now rewrite (Qabs_pos x H).
  now rewrite (Qfloor_comp _ _ E).
Qed.

Lemma toFixed2_neg (x : Q) :
  x < 0 ->
  Js.toFixed2 x == - (inject_Z (Qfloor (- x * 100 + (1 # 2))) / 100).
Proof.
  intro H. unfold Js.toFixed2.
  replace (Js.ltb x 0) with true by (symmetry; now apply ltb_true_iff).
  assert (E : Qabs x * 100 + (1 # 2) == - x * 100 + (1 # 2))
    by now rewrite (Qabs_neg x (Qlt_le_weak _ _ H)).
  now rewrite (Qfloor_comp _ _ E).
Qed.

Lemma hundredths_nonneg (x : Q) : (0 <= Qfloor (Qabs x * 100 + (1 # 2)))%Z.
Proof.
  change 0%Z with (Qfloor 0). apply Qfloor_resp_le.
  pose proof (Qabs_nonneg x). set (a := Qabs x) in *. clearbody a. Lqa.lra.
Qed.

(** [toFixed(2)] keeps the order of the numbers it prints. *)
Lemma toFixed2_mono (x y : Q) : x <= y -> Js.toFixed2 x <= Js.toFixed2 y.
Proof.
  intro Hxy.
  assert (Hdiv : forall n m : Z, (n <= m)%Z -> inject_Z n / 100 <= inject_Z m / 100).
  { intros n m H. unfold Qdiv. apply Qmult_le_compat_r; [|discriminate].
    now rewrite <- Zle_Qle. }
  destruct (Qlt_le_dec x 0) as [Hx|Hx]; destruct (Qlt_le_dec y 0) as [Hy|Hy].
  - rewrite (toFixed2_neg x Hx), (toFixed2_neg y Hy).
    apply Qopp_le_compat, Hdiv, Qfloor_resp_le. Lqa.lra.
  - rewrite (toFixed2_neg x Hx), (toFixed2_nonneg y Hy).
    pose proof (hundredths_nonneg x) as Nx. pose proof (hundredths_nonneg y) as Ny.
    rewrite (Qfloor_comp (Qabs x * 100 + (1 # 2)) (- x * 100 + (1 # 2))) in Nx
      by now rewrite (Qabs_neg x (Qlt_le_weak _ _ Hx)).
    rewrite (Qfloor_comp (Qabs y * 100 + (1 # 2)) (y * 100 + (1 # 2))) in Ny
      by now rewrite (Qabs_pos y Hy).
    rewrite Zle_Qle in Nx, Ny. change (inject_Z 0) with 0 in Nx, Ny.
    unfold Qdiv. setoid_replace (/ 100) with (1 # 100) by reflexivity.
    set (u := inject_Z (Qfloor (- x * 100 + (1 # 2)))) in *.
    set (v := inject_Z (Qfloor (y * 100 + (1 # 2)))) in *.
    clearbody u v. Lqa.lra.
  - exfalso. Lqa.lra.
  - rewrite (toFixed2_nonneg x Hx), (toFixed2_nonneg y Hy).
    apply Hdiv, Qfloor_resp_le. Lqa.lra.
Qed.

(** The alpha of line 89 does not grow with the phase. *)
Lemma outer_alpha_mono (c : Colors) (t u : Q) :
  t <= u ->
  Canvas.alpha (LowFrameRate.outer_fill false c u)
  <= Canvas.alpha (LowFrameRate.outer_fill false c t).
Proof.
  intro H. cbn [LowFrameRate.outer_fill Canvas.replace_alpha Canvas.alpha].
  apply toFixed2_mono. unfold Js.minus. apply double_mono.
  pose proof (double_mono t u H).
  set (a := Js.double t) in *. set (b := Js.double u) in *.
  set (k := Js.double (6 # 10)). clearbody a b k. Lqa.lra.
Qed.

(** The literal [0.6] as binary64 stores it, and the alpha at the clock
    readings 10 and 1390: the exact differences 0.595 and -0.095 would
    print as 0.60 and -0.10, the binary64 ones print as 0.59 and -0.09. *)
Lemma outer_alpha_samples (c : Colors) :
  Js.double (6 # 10) = 5404319552844595 # 9007199254740992
  /\ Canvas.alpha (LowFrameRate.outer_fill false c (LowFrameRate.phase 10)) = 59 # 100
  /\ Canvas.alpha (LowFrameRate.outer_fill false c (LowFrameRate.phase 1390))
     = - (9 # 100).
Proof. repeat split; vm_compute; reflexivity. Qed.

End Fade.

(** X8. The outer circle of the reduced frame rate marker fades as
    [toFixed] prints it. In a [render] on a clock that is not negative,
    with the stop flag clear, the alpha written into the colour of the
    outer circle, computed in binary64 and printed with two decimals,
    does not grow while the clock stays within one period of 2000 ms; it
    lies between -0.40 and 0.60, is at least 0.01 while the phase is at
    most 0.59, and is zero or negative once the phase has reached 0.6. *)
Theorem outer_circle_fades :
  forall (c : Colors) (now2 next2 : Q),
    (0 <= now2)%Q -> (now2 <= next2)%Q ->
    Qfloor (now2 / LowFrameRate.duration) = Qfloor (next2 / LowFrameRate.duration) ->
    let alpha_at clock :=
      Canvas.alpha (LowFrameRate.outer_fill false c (LowFrameRate.phase clock)) in
    (alpha_at next2 <= alpha_at now2)%Q
    /\ (- (4 # 10) <= alpha_at now2)%Q /\ (alpha_at now2 <= 6 # 10)%Q
    /\ ((LowFrameRate.phase now2 <= 59 # 100)%Q -> (1 # 100 <= alpha_at now2)%Q)
    /\ ((6 # 10 <= LowFrameRate.phase now2)%Q -> (alpha_at now2 <= 0)%Q).
Proof.
  intros c now2 next2 H0 Hle Hcycle alpha_at.
  destruct (phase_range now2 H0) as [Hlo Hhi].
  change (OpacityDot.phase now2) with (LowFrameRate.phase now2) in Hlo, Hhi.
  pose proof (phase_same_cycle now2 next2 H0 Hle Hcycle) as Hph.
  change (OpacityDot.phase now2) with (LowFrameRate.phase now2) in Hph.
  change (OpacityDot.phase next2) with (LowFrameRate.phase next2) in Hph.
  unfold alpha_at.
  set (t := LowFrameRate.phase now2) in *.
  set (u := LowFrameRate.phase next2) in *. clearbody t u.
  split; [now apply outer_alpha_mono|].
  split; [|split; [|split]].
  - apply (Qle_trans _ (Canvas.alpha (LowFrameRate.outer_fill false c 1))).
    + vm_compute. discriminate.
    + apply outer_alpha_mono, Qlt_le_weak, Hhi.
  - apply (Qle_trans _ (Canvas.alpha (LowFrameRate.outer_fill false c 0))).
    + now apply outer_alpha_mono.
    + vm_compute. discriminate.
  - intro Ht.
    apply (Qle_trans _ (Canvas.alpha (LowFrameRate.outer_fill false c (59 # 100)))).
    + vm_compute. discriminate.
    + now apply outer_alpha_mono.
  - intro Ht.
    apply (Qle_trans _ (Canvas.alpha (LowFrameRate.outer_fill false c (6 # 10)))).
    + now apply outer_alpha_mono.
    + vm_compute. discriminate.
Qed.

Lemma outer_circle_fades_witness :
  (Canvas.alpha (LowFrameRate.outer_fill false (LowFrameRate.colors false false)
                   (LowFrameRate.phase 1390))
   <= Canvas.alpha (LowFrameRate.outer_fill false (LowFrameRate.colors false false)
                      (LowFrameRate.phase 10)))%Q.
Proof.
  refine (proj1 (outer_circle_fades (LowFrameRate.colors false false) 10 1390 _ _ _));
    reflexivity || discriminate.
Defined.


(** ** The range of the opacity scaling *)

Section OpacityRange.

Local Open Scope R_scope.

(** A byte is stored as itself. *)
Lemma ToUint8Clamp_byte (b : Z) :
  (0 <= b <= 255)%Z -> Js.ToUint8Clamp (IZR b) = b.
Proof.
  intros [H0 H255]. unfold Js.ToUint8Clamp.
  destruct (Rle_dec (IZR b) 0) as [Hle|Hgt].
  { apply le_IZR in Hle. lia. }
  destruct (Rle_dec 255 (IZR b)) as [Hge|Hlt].
  { apply le_IZR in Hge. lia. }
  assert (E : Int_part (IZR b) = b).
  { symmetry. apply Int_part_spec. split; lra. }
  rewrite E. destruct (Rlt_dec (IZR b - IZR b) (1 / 2)); [reflexivity|lra].
Qed.

Lemma opacity_at_half (t : Q) : (t == 1 # 2)%Q -> OpacityDot.opacity t = 1.
Proof.
  intro E. unfold OpacityDot.opacity.
  rewrite (Qeq_eqR _ _ E), Q2R_half.
  replace (1 / 2 * PI) with (PI / 2) by lra. rewrite sin_PI2. lra.
Qed.

(** Scaling image data by 1 changes nothing. *)
Lemma scale_alpha_one (rz : Canvas.Rasterizer) (k : Canvas.Context2D) (sw sh : nat) :
  OpacityDot.scale_alpha 1 (Canvas.getImageData rz k sw sh)
  = Canvas.getImageData rz k sw sh.
Proof.
  apply (nth_ext _ _ 0%Z 0%Z); [apply scale_alpha_length|].
  intros i _. rewrite scale_alpha_nth.
  destruct (_ && _); [|reflexivity].
  rewrite Rmult_1_r. apply ToUint8Clamp_byte, getImageData_range.
Qed.

End OpacityRange.

(** X9. An opacity [render] that returns true on a clock that is not
    negative never brightens a pixel and never dims it below three tenths:
    each alpha byte of [data] is at most the canvas byte it was scaled
    from, and at least that byte times 0.3 as a clamped byte array stores
    it. When the phase is exactly one half, [data] is the canvas image
    unchanged. *)
Theorem opacity_scaling_bounds :
  forall (rz : Canvas.Rasterizer) (h h' : Host.t) (s s' : OpacityDot.t) (now now2 : Q),
    OpacityDot.render rz h s now now2 = (Js.Returned true, s', h') ->
    (0 <= now2)%Q ->
    exists k,
      let canvas :=
        Canvas.getImageData rz k (OpacityDot.width s) (OpacityDot.height s) in
      OpacityDot.context s = Some k
      /\ (forall pixel : nat,
             (Js.ToUint8Clamp (IZR (nth (4 * pixel + 3) canvas 0) * 0.3)
              <= nth (4 * pixel + 3) (OpacityDot.data s') 0
              <= nth (4 * pixel + 3) canvas 0)%Z)
      /\ ((OpacityDot.phase now2 == 1 # 2)%Q -> OpacityDot.data s' = canvas).
Proof.
  intros rz h h' s s' now now2 H H0.
  destruct (opacity_render_true rz h h' s s' now now2 H)
    as (k & Hk & _ & _ & -> & _).
  exists k. cbv zeta. cbn [OpacityDot.set_data OpacityDot.data].
  split; [exact Hk|]. split.
  - intro pixel. rewrite scale_alpha_nth.
    set (i := (4 * pixel + 3)%nat).
    pose proof (getImageData_range rz k (OpacityDot.width s) (OpacityDot.height s) i)
      as Hb.
    set (c := nth i (Canvas.getImageData rz k (OpacityDot.width s)
                                         (OpacityDot.height s)) 0%Z) in *.
    destruct (phase_range now2 H0) as [Hp0 Hp1].
    destruct (opacity_range (OpacityDot.phase now2) Hp0 (Qlt_le_weak _ _ Hp1))
      as [Ho0 Ho1].
    assert (Hc : (0 <= IZR c)%R) by (apply IZR_le; lia).
    destruct (_ && _).
    + split.
      * apply ToUint8Clamp_mono. nra.
      * rewrite <- (ToUint8Clamp_byte c Hb) at 2. apply ToUint8Clamp_mono. nra.
    + split; [|lia].
      rewrite <- (ToUint8Clamp_byte c Hb) at 2. apply ToUint8Clamp_mono. nra.
  - intro Ehalf. rewrite (opacity_at_half _ Ehalf). apply scale_alpha_one.
Qed.

Lemma opacity_scaling_bounds_witness :
  exists k,
    OpacityDot.context Samples.painted_opacity_dot = Some k
    /\ (nth (4 * 2812 + 3) (OpacityDot.data Samples.first_tick) 0
        <= nth (4 * 2812 + 3) (Canvas.getImageData SampleRaster.discs k 75 75) 0)%Z.
Proof.
  assert (H0 : (0 <= 1100)%Q) by discriminate.
  destruct (opacity_scaling_bounds SampleRaster.discs _ _ _ _ 1000 1100
              sample_first_tick H0) as (k & Hk & Hb & _).
  exists k. split; [exact Hk|]. exact (proj2 (Hb 2812%nat)).
Defined.

(** ** What an admitted tick of the opacity marker stores *)



(** ** One turn of the frame ring *)

Lemma skipn_nth_error {A : Type} (l : list A) :
  forall (c : nat) (x : A),
    nth_error l c = Some x -> skipn c l = x :: skipn (S c) l.
Proof.
  induction l as [|a l IH]; intros [|c] x H; try discriminate.
  - injection H as ->. reflexivity.
  - cbn [nth_error] in H. cbn [skipn]. rewrite (IH c x H). reflexivity.
Qed.

Lemma pre_shown_admitted (frames : list (list Z)) (times : list Q) :
  frames <> [] ->
  forall (s : PreRendered.t) (h : Host.t),
    PreRendered.preRenderedFrames s = Some frames ->
    (PreRendered.currentFrame s + length times <= length frames)%nat ->
    PreRendered.admitted (PreRendered.lastUpdate s) times = true ->
    pre_shown times (s, h)
    = map Some (firstn (length times) (skipn (PreRendered.currentFrame s) frames)).
Proof.
  intro Hne. induction times as [|now rest IH]; intros s h Hf Hlen Hadm;
    [reflexivity|].
  cbn [PreRendered.admitted] in Hadm.
  apply andb_true_iff in Hadm. destruct Hadm as [Hgate Hrest].
  apply negb_true_iff in Hgate.
  cbn [pre_shown fst snd length] in Hlen |- *.
  rewrite (pre_render_admitted frames Hne h s now Hf Hgate).
  cbn [PreRendered.set_currentFrame PreRendered.set_data PreRendered.data].
  destruct (nth_error frames (PreRendered.currentFrame s)) as [fr|] eqn:En;
    [|apply nth_error_None in En; lia].
  rewrite (skipn_nth_error frames _ fr En). cbn [firstn map]. f_equal.
  destruct rest as [|next rest']; [reflexivity|].
  assert (Hsmall : (PreRendered.currentFrame s + 1 < length frames)%nat)
    by (cbn [length] in Hlen; lia).
  rewrite (Nat.mod_small _ _ Hsmall).
  match goal with
  | |- pre_shown _ (?s1, ?h1) = _ =>
      rewrite (IH s1 h1 Hf);
      cbn [PreRendered.currentFrame PreRendered.lastUpdate
           PreRendered.set_currentFrame PreRendered.set_data
           PreRendered.set_lastUpdate]
  end.
  - now rewrite Nat.add_1_r.
  - cbn [length] in Hlen |- *. lia.
  - exact Hrest.
Qed.

(** X11. One turn of the ring shows every frame once, in order: in a
    pre-rendered marker with [N > 0] frames and its index at 0, a run of
    [N] admitted ticks puts frame 0, frame 1, ..., frame [N - 1] into
    [data], one per tick. *)
Theorem full_turn_shows_every_frame :
  forall (frames : list (list Z)) (h : Host.t) (s : PreRendered.t) (times : list Q),
    frames <> [] ->
    PreRendered.preRenderedFrames s = Some frames ->
    PreRendered.currentFrame s = 0%nat ->
    PreRendered.admitted (PreRendered.lastUpdate s) times = true ->
    length times = length frames ->
    pre_shown times (s, h) = map Some frames.
Proof.
  intros frames h s times Hne Hf Hc Hadm Hlen.
  rewrite (pre_shown_admitted frames times Hne s h Hf); [|rewrite Hc; lia|exact Hadm].
  rewrite Hc, Hlen. cbn [skipn]. now rewrite firstn_all.
Qed.

Lemma full_turn_shows_every_frame_witness :
  pre_shown [100; 200; 300]%Q (Samples.ring_dot, Host.plain)
  = [Some [1%Z]; Some [2%Z]; Some [3%Z]].
Proof.
  assert (Hne : Samples.three_frames <> []) by discriminate.
  exact (full_turn_shows_every_frame Samples.three_frames Host.plain Samples.ring_dot
           [100; 200; 300]%Q Hne eq_refl eq_refl eq_refl eq_refl).
Defined.

(** * The colours, and the canvas they are painted on *)

(** ** Colour selection *)

Section Colours.

Local Open Scope Q_scope.

Variable rz : Canvas.Rasterizer.
Variable line156 : PreRendered.Line156.

Lemma palette_app (k k' : Canvas.Context2D) (ops : list Canvas.DrawOp) :
  Canvas.drawn k' = Canvas.drawn k ++ ops ->
  palette k' = palette k ++ flat_map op_rgb ops.
Proof.
  intro H. unfold palette. rewrite H. apply flat_map_app.
Qed.

(** An admitted tick of the reduced frame rate marker draws with the
    colours its flags select at that tick. *)
Lemma low_tick_palette (h : Host.t) (s : LowFrameRate.t) (k : Canvas.Context2D)
      (now now2 : Q) :
  LowFrameRate.context s = Some k ->
  (LowFrameRate.updateInterval <= now - LowFrameRate.lastUpdate s)%Q ->
  exists k',
    LowFrameRate.context (snd (fst (LowFrameRate.render rz h s now now2))) = Some k'
    /\ palette k'
       = palette k
         ++ [if LowFrameRate.stopPulse s then (219, 55, 19)%Z
             else claimed_triple (LowFrameRate.isGrey s)
                                 (LowFrameRate.isCarrierVehicleOnRoute s);
             claimed_triple (LowFrameRate.isGrey s)
                            (LowFrameRate.isCarrierVehicleOnRoute s);
             stroke_triple (LowFrameRate.isGrey s)
                           (LowFrameRate.isCarrierVehicleOnRoute s)].
Proof.
  intros Hk Hgate.
  rewrite (low_render_admitted rz h s k now now2 Hk Hgate). cbn [fst snd].
  eexists. split; [reflexivity|].
  rewrite (palette_app k _ _ (low_draw_drawn s (LowFrameRate.phase now2) k)).
  f_equal. unfold low_colors, LowFrameRate.colors, LowFrameRate.outer_fill.
  destruct (LowFrameRate.stopPulse s), (LowFrameRate.isGrey s),
    (LowFrameRate.isCarrierVehicleOnRoute s); reflexivity.
Qed.

(** A frame of the pre-rendered marker fills and strokes its inner circle
    with the colours the factory selected, whatever line 156 does to the
    outer one. *)
Lemma pre_frame_palette (s : PreRendered.t) (i : nat) (k : Canvas.Context2D) :
  exists x,
    palette (PreRendered.draw_frame line156 s i k)
    = palette k ++ [x; rgb (inner (PreRendered.closure_colors s));
                    rgb (stroke (PreRendered.closure_colors s))].
Proof.
  eexists. rewrite (palette_app k _ _ (pre_draw_frame_drawn line156 s i k)).
  reflexivity.
Qed.

Lemma opacity_draw_static_drawn (s : OpacityDot.t) (k : Canvas.Context2D) :
  let half := inject_Z (Z.of_nat (OpacityDot.size s)) / 2 in
  let x := inject_Z (Z.of_nat (OpacityDot.width s)) / 2 in
  let y := inject_Z (Z.of_nat (OpacityDot.height s)) / 2 in
  let c := OpacityDot.colors (OpacityDot.isGrey s) (OpacityDot.isCarrierVehicleOnRoute s) in
  Canvas.drawn (OpacityDot.draw_static s k)
  = Canvas.drawn k
    ++ [Canvas.Fill [Canvas.circle x y (half * (7 # 10))] (outer c);
        Canvas.Fill [Canvas.circle x y (half * (3 # 10))] (inner c);
        Canvas.Stroke [Canvas.circle x y (half * (3 # 10))] (stroke c) 2].
Proof.
  unfold OpacityDot.draw_static.
  cbn -[Qmult Qdiv Qplus inject_Z OpacityDot.colors].
  now rewrite <- !app_assoc.
Qed.

(** On a page with a global [context], the [onAdd] of the opacity marker
    draws there with the colours its flags select. *)
Lemma opacity_onAdd_palette (h : Host.t) (s : OpacityDot.t) (k : Canvas.Context2D) :
  Host.global_context h = Some k ->
  exists k',
    Host.global_context (snd (OpacityDot.onAdd h s)) = Some k'
    /\ palette k'
       = palette k
         ++ [claimed_triple (OpacityDot.isGrey s) (OpacityDot.isCarrierVehicleOnRoute s);
             claimed_triple (OpacityDot.isGrey s) (OpacityDot.isCarrierVehicleOnRoute s);
             stroke_triple (OpacityDot.isGrey s) (OpacityDot.isCarrierVehicleOnRoute s)].
Proof.
  intro Hk. unfold OpacityDot.onAdd. rewrite Hk.
  cbn [snd Host.set_global_context Host.global_context].
  eexists. split; [reflexivity|].
  rewrite (palette_app k _ _ (opacity_draw_static_drawn _ k)).
  f_equal.
  cbn [OpacityDot.set_context OpacityDot.isGrey OpacityDot.isCarrierVehicleOnRoute].
  destruct (OpacityDot.isGrey s), (OpacityDot.isCarrierVehicleOnRoute s); reflexivity.
Qed.

End Colours.

(** C6. The colours the markers draw with follow the flags in the order
    grey, route, default. With [fill] the triple (55, 64, 83) under the
    grey flag whatever the route flag is, (84, 199, 116) under the route
    flag alone and (219, 55, 19) under neither, and [line] the stroke
    triple that goes with it:
    - the reduced frame rate and the opacity factories store their
      arguments in the flags of the same name, and the drawing reads the
      flags the object has when it draws. An admitted tick of the reduced
      frame rate marker adds three colours to its canvas: [fill] for the
      outer circle, unless the marker is stopped, when line 88 gives it
      the red triple whatever the flags are; [fill] for the inner circle;
      [line] for its stroke. The [onAdd] of the opacity marker adds
      [fill], [fill] and [line] to the page's global [context], which is
      where its drawing calls go;
    - the pre-rendered factory selects once, from its arguments: every
      frame its loop draws fills and strokes the inner circle with [fill]
      and [line], whatever flags the object has by then and whatever
      line 156 assigns for the outer circle;
    - the CSS factory selects [fill] and [line] from its arguments; no
      method of its object reads them. *)
Theorem color_precedence :
  forall (rz : Canvas.Rasterizer) (line156 : PreRendered.Line156) (h : Host.t)
         (route grey : bool),
    let fill := claimed_triple grey route in
    let line := stroke_triple grey route in
    (LowFrameRate.isGrey (createLowFrameRatePulsingDot route grey) = grey
     /\ LowFrameRate.isCarrierVehicleOnRoute (createLowFrameRatePulsingDot route grey)
        = route
     /\ forall (s : LowFrameRate.t) (k : Canvas.Context2D) (now now2 : Q),
          LowFrameRate.isGrey s = grey ->
          LowFrameRate.isCarrierVehicleOnRoute s = route ->
          LowFrameRate.context s = Some k ->
          (LowFrameRate.updateInterval <= now - LowFrameRate.lastUpdate s)%Q ->
          exists k',
            LowFrameRate.context (snd (fst (LowFrameRate.render rz h s now now2)))
            = Some k'
            /\ palette k'
               = palette k
                 ++ [if LowFrameRate.stopPulse s then (219, 55, 19)%Z else fill;
                     fill; line])
    /\ (forall (s : PreRendered.t) (i : nat) (k : Canvas.Context2D),
          PreRendered.closure_colors s
          = PreRendered.closure_colors (createPreRenderedPulsingDot route grey) ->
          exists x,
            palette (PreRendered.draw_frame line156 s i k)
            = palette k ++ [x; fill; line])
    /\ (OpacityDot.isGrey (createOpacityPulsingDot route grey) = grey
        /\ OpacityDot.isCarrierVehicleOnRoute (createOpacityPulsingDot route grey)
           = route
        /\ forall (s : OpacityDot.t) (k : Canvas.Context2D),
             OpacityDot.isGrey s = grey ->
             OpacityDot.isCarrierVehicleOnRoute s = route ->
             Host.global_context h = Some k ->
             exists k',
               Host.global_context (snd (OpacityDot.onAdd h s)) = Some k'
               /\ palette k' = palette k ++ [fill; fill; line])
    /\ (let c := CssDot.closure_colors (createCSSPulsingDot route grey) in
        rgb (outer c) = fill /\ rgb (inner c) = fill /\ rgb (stroke c) = line).
Proof.
  intros rz line156 h route grey fill line.
  split; [|split; [|split]].
  - split; [reflexivity|]. split; [reflexivity|].
    intros s k now now2 <- <- Hk Hgate.
    exact (low_tick_palette rz h s k now now2 Hk Hgate).
  - intros s i k Hc.
    destruct (pre_frame_palette line156 s i k) as [x Hx].
    exists x. rewrite Hx, Hc. subst fill line.
    destruct grey, route; reflexivity.
  - split; [reflexivity|]. split; [reflexivity|].
    intros s k <- <- Hk.
    exact (opacity_onAdd_palette h s k Hk).
  - subst fill line. destruct grey, route; repeat split; reflexivity.
Qed.

(** ** What the setup of the opacity marker paints *)

Lemma ToUint8Clamp_zero (o : R) : Js.ToUint8Clamp (IZR 0 * o) = 0%Z.
Proof.
  rewrite Rmult_0_l. unfold Js.ToUint8Clamp.
  destruct (Rle_dec 0 0) as [_|H]; [reflexivity|]. exfalso. apply H. lra.
Qed.

(** Scaling the alpha bytes of a transparent black image leaves it as it
    is. *)
Lemma scale_alpha_zeros (o : R) (n : nat) :
  OpacityDot.scale_alpha o (repeat 0%Z n) = repeat 0%Z n.
Proof.
  apply (nth_ext _ _ 0%Z 0%Z); [apply scale_alpha_length|].
  intros i _. rewrite scale_alpha_nth, nth_repeat.
  destruct (_ && _); [apply ToUint8Clamp_zero|reflexivity].
Qed.

Lemma all_zero_repeat (l : list Z) :
  forallb (Z.eqb 0) l = true -> l = repeat 0%Z (length l).
Proof.
  induction l as [|a l IH]; [reflexivity|].
  cbn [forallb length repeat]. intro H.
  apply andb_true_iff in H. destruct H as [Ha Hl].
  apply Z.eqb_eq in Ha. subst a. now rewrite <- IH.
Qed.

Lemma blank_canvas_image :
  Canvas.getImageData SampleRaster.discs (Canvas.createContext 75 75) 75 75
  = repeat 0%Z (75 * 75 * 4).
Proof.
  rewrite <- (getImageData_length SampleRaster.discs (Canvas.createContext 75 75)).
  apply all_zero_repeat. vm_compute. reflexivity.
Qed.

(** C10. The values drawn at setup never reach [data]. On a page that has
    a global [context], [onAdd] of a new opacity marker returns after
    painting the page's canvas, whose centre pixel then has the opaque
    colour the flags select, and leaves the canvas it has just stored in
    [this.context] blank. The first tick the gate admits returns true and
    reads that blank canvas: every byte of [data], red, green and blue
    included, is 0, whatever the clock reads. On a page with no such
    global the same [onAdd] throws a ReferenceError where the drawing
    starts. *)
Theorem opacity_setup_paints_another_canvas :
  forall (route grey : bool) (now now2 : Q),
    (OpacityDot.updateInterval <= now)%Q ->
    let added := OpacityDot.onAdd Samples.context_page
                   (createOpacityPulsingDot route grey) in
    let marker := snd (fst added) in
    let ticked := OpacityDot.render SampleRaster.discs (snd added) marker now now2 in
    fst (fst added) = Js.Returned tt
    /\ OpacityDot.context marker = Some (Canvas.createContext 75 75)
    /\ (exists page_canvas,
          Host.global_context (snd added) = Some page_canvas
          /\ Canvas.image_pixel SampleRaster.discs page_canvas 37 37
             = (let '(r, g, b) := claimed_triple grey route in [r; g; b; 255%Z]))
    /\ fst (fst ticked) = Js.Returned true
    /\ OpacityDot.data (snd (fst ticked)) = repeat 0%Z (75 * 75 * 4)
    /\ fst (fst (OpacityDot.onAdd Host.plain (createOpacityPulsingDot route grey)))
       = Js.Threw Js.ReferenceError.
Proof.
  intros route grey now now2 Hgate added marker ticked.
  split; [reflexivity|]. split; [reflexivity|].
  split.
  { eexists. split; [reflexivity|].
    destruct grey, route; vm_compute; reflexivity. }
  assert (E : ticked
              = (Js.Returned true,
                 OpacityDot.set_data
                   (OpacityDot.scale_alpha (OpacityDot.opacity (OpacityDot.phase now2))
                      (Canvas.getImageData SampleRaster.discs
                         (Canvas.createContext 75 75) 75 75))
                   (OpacityDot.set_lastUpdate now marker),
                 Host.triggerRepaint (snd added))).
  { apply (opacity_render_admitted SampleRaster.discs (snd added) marker
             (Canvas.createContext 75 75) now now2 eq_refl eq_refl).
    change (OpacityDot.lastUpdate marker) with 0%Q.
    unfold Qminus. now rewrite Qplus_0_r. }
  rewrite E. cbn [fst snd OpacityDot.set_data OpacityDot.data].
  split; [reflexivity|]. split; [|reflexivity].
  rewrite blank_canvas_image. apply scale_alpha_zeros.
Qed.

Lemma opacity_setup_paints_another_canvas_witness :
  OpacityDot.data
    (snd (fst (OpacityDot.render SampleRaster.discs
                 (snd (OpacityDot.onAdd Samples.context_page
                         (createOpacityPulsingDot false false)))
                 (snd (fst (OpacityDot.onAdd Samples.context_page
                              (createOpacityPulsingDot false false))))
                 1000 1100)))
  = repeat 0%Z (75 * 75 * 4).
Proof.
  refine (proj1 (proj2 (proj2 (proj2 (proj2
            (opacity_setup_paints_another_canvas false false 1000 1100 _)))))).
  discriminate.
Defined.

Lemma color_precedence_witness :
  (exists k,
     LowFrameRate.context
       (snd (fst (LowFrameRate.render SampleRaster.discs Host.plain
                    (LowFrameRate.onAdd (createLowFrameRatePulsingDot true true))
                    1000 1000)))
     = Some k
     /\ palette k = [(55, 64, 83); (55, 64, 83); (237, 240, 240)]%Z)
  /\ (exists k,
        Host.global_context
          (snd (OpacityDot.onAdd Samples.context_page
                  (createOpacityPulsingDot true false)))
        = Some k
        /\ palette k = [(84, 199, 116); (84, 199, 116); (84, 199, 116)]%Z).
Proof.
  split.
  - refine (proj2 (proj2 (proj1
              (color_precedence SampleRaster.discs Samples.as_line_89 Host.plain
                 true true)))
              (LowFrameRate.onAdd (createLowFrameRatePulsingDot true true))
              (Canvas.createContext 75 75) 1000%Q 1000%Q eq_refl eq_refl eq_refl _).
    discriminate.
  - exact (proj2 (proj2 (proj1 (proj2 (proj2
             (color_precedence SampleRaster.discs Samples.as_line_89
                Samples.context_page true false)))))
             (createOpacityPulsingDot true false)
             (Canvas.createContext 75 75) eq_refl eq_refl eq_refl).
Defined.
